(** * DCR: Data Contamination Risk framework

    A shallow embedding of [src/core/fuzzy_system.py] and
    [src/core/dcr_calculator.py], and the properties of the fuzzy engine and
    of the contamination analyzer that the specification states.

    Numbers.  Python floats are modelled as exact rationals [Q]: every finite
    float is a rational, and the arithmetic of the program is read without
    rounding error.  NaN and the infinities have no counterpart.  Equality of
    numbers is [Qeq] ([==]) unless both sides are the same expression.

    Libraries.  The program calls scikit-fuzzy ([trapmf], [trimf],
    [interp_membership], [defuzz]) and SciPy ([pearsonr]).  They are not part
    of the repository: the engine and the analyzer are written over an
    interface for each ([Skfuzzy], [ScipyStats]), every general theorem holds
    for all implementations of the interface, and module [Reference] gives
    one implementation, following the specification's description of the
    membership functions and of the centroid. *)

From Stdlib Require Import QArith Qround Qabs Lqa.
From stdpp Require Import base option list gmap strings.

Local Open Scope Q_scope.

(** ** Python exceptions *)

Inductive exception : Type :=
| AssertionError
| ValueError
| ZeroDivisionError.

Inductive result (A : Type) : Type :=
| Ok (a : A)
| Raise (e : exception).
Arguments Ok {A} a.
Arguments Raise {A} e.

#[global] Instance result_ret : MRet result := fun _ a => Ok a.
#[global] Instance result_bind : MBind result := fun _ _ f m =>
  match m with
  | Ok a => f a
  | Raise e => Raise e
  end.

(** ** Numbers *)

Definition Qltb (a b : Q) : bool :=
  match a ?= b with
  | Lt => true
  | _ => false
  end.

Definition Qeqb (a b : Q) : bool :=
  match a ?= b with
  | Eq => true
  | _ => false
  end.

(** The builtin [min(a, b)]: the first argument unless the second is smaller. *)
Definition py_min (a b : Q) : Q := if Qltb b a then b else a.

(** The builtin [max(a, b)]: the first argument unless the second is larger. *)
Definition py_max (a b : Q) : Q := if Qltb a b then b else a.

(** [np.fmin] and [np.fmax] on scalars. *)
Definition np_fmin (a b : Q) : Q := if Qltb b a then b else a.
Definition np_fmax (a b : Q) : Q := if Qltb a b then b else a.

(** Rounding to the nearest integer, ties to even. *)
Definition round_half_even (q : Q) : Z :=
  let f := Qfloor q in
  match Qcompare (q - inject_Z f) (1 # 2) with
  | Lt => f
  | Gt => (f + 1)%Z
  | Eq => if Z.even f then f else (f + 1)%Z
  end.

(** The builtin [round(q, ndigits)]. *)
Definition py_round (q : Q) (ndigits : nat) : Q :=
  let scale := inject_Z (10 ^ Z.of_nat ndigits) in
  inject_Z (round_half_even (q * scale)) / scale.

(** [sum(l)], and [np.sum]: left to right from zero. *)
Definition py_sum (l : list Q) : Q := fold_left Qplus l 0.

(** [np.mean] of a non-empty sequence. *)
Definition np_mean (l : list Q) : Q :=
  py_sum l / inject_Z (Z.of_nat (length l)).

(** ** Arrays

    A one-dimensional [ndarray] is a list.  An operation on two arrays of
    different length raises [ValueError]. *)

Definition np_zip (f : Q -> Q -> Q) (a b : list Q) : result (list Q) :=
  if decide (length a = length b) then Ok (zip_with f a b) else Raise ValueError.

(** [np.max] of an array; an empty array raises [ValueError]. *)
Definition np_max (a : list Q) : result Q :=
  match a with
  | [] => Raise ValueError
  | v :: a' => Ok (fold_left np_fmax a' v)
  end.

(** [np.fmax.reduce] over a list of arrays. *)
Definition np_fmax_reduce (arrays : list (list Q)) : result (list Q) :=
  match arrays with
  | [] => Raise ValueError
  | a :: rest => foldl (fun acc b => acc ← acc; np_zip np_fmax acc b) (Ok a) rest
  end.

(** [np.linspace(start, stop, num)]. *)
Definition np_linspace (start stop : Q) (num : nat) : list Q :=
  let step := (stop - start) / inject_Z (Z.of_nat (num - 1)) in
  map (fun i => start + inject_Z (Z.of_nat i) * step) (seq 0 num).

(** ** The libraries the program calls *)

(** scikit-fuzzy.  [trapmf x abcd] and [trimf x abc] sample a membership
    function on the array [x]; [interp_membership x xmf xx] evaluates the
    sampled function [xmf] at the point [xx]; [defuzz x mfx mode] is the
    defuzzification of [mfx], and the one call of the library that raises. *)
Class Skfuzzy : Type := {
  trapmf : list Q -> list Q -> list Q;
  trimf : list Q -> list Q -> list Q;
  interp_membership : list Q -> list Q -> Q -> Q;
  defuzz : list Q -> list Q -> string -> result Q
}.

(** SciPy.  [pearsonr xs ys] is the pair of the Pearson coefficient and its
    two-tailed p-value.  It raises [ValueError] on lists of different length
    or with fewer than two elements, and on no other lists. *)
Class ScipyStats : Type := {
  pearsonr : list Q -> list Q -> result (Q * Q);
  pearsonr_returns : forall xs ys : list Q,
    length xs = length ys -> (2 <= length xs)%nat ->
    exists rp, pearsonr xs ys = Ok rp
}.

(** ** [src/core/fuzzy_system.py] *)

(** The dictionaries of the engine have fixed keys: they are records. *)
Record InputTerms (A : Type) : Type := {
  Low : A;
  Medium : A;
  High : A
}.
Arguments Low {A} _.
Arguments Medium {A} _.
Arguments High {A} _.

Record OutputTerms : Type := {
  Negligible : list Q;
  Minor : list Q;
  Moderate : list Q;
  Significant : list Q;
  Severe : list Q
}.

(** [fuzzified]: the membership degrees of the four inputs. *)
Record Fuzzified : Type := {
  L1 : InputTerms Q;
  L2 : InputTerms Q;
  L3 : InputTerms Q;
  L4 : InputTerms Q
}.

Module FuzzySystem.
Section Engine.
Context `{Skfuzzy}.

Record t : Type := {
  x : list Q;
  input_terms : InputTerms (list Q);
  output_terms : OutputTerms
}.

Definition _setup_input_membership (x : list Q) : InputTerms (list Q) :=
  {| Low := trapmf x [0; 0; 1 # 10; 3 # 10];
     Medium := trapmf x [2 # 10; 4 # 10; 5 # 10; 6 # 10];
     High := trapmf x [5 # 10; 8 # 10; 1; 1] |}.

Definition _setup_output_membership (x : list Q) : OutputTerms :=
  {| Negligible := trapmf x [0; 0; 1 # 10; 3 # 10];
     Minor := trimf x [1 # 10; 3 # 10; 5 # 10];
     Moderate := trimf x [3 # 10; 5 # 10; 7 # 10];
     Significant := trimf x [5 # 10; 7 # 10; 9 # 10];
     Severe := trapmf x [7 # 10; 9 # 10; 1; 1] |}.

(** [__init__]: the constructor takes no argument. *)
Definition __init__ : t :=
  let x := np_linspace 0 1 101 in
  {| x := x;
     input_terms := _setup_input_membership x;
     output_terms := _setup_output_membership x |}.

Definition _apply_rules (self : t) (fuzzified : Fuzzified) (min_memb : Q)
  : result (list Q) :=
  let rule0 :=
    np_fmin (np_fmin (Low (L1 fuzzified)) (Low (L2 fuzzified)))
            (np_fmin (Low (L3 fuzzified)) (Low (L4 fuzzified))) in
  let rule0 := map (np_fmin rule0) (Negligible (output_terms self)) in
  let rule_severe :=
    map (np_fmin (np_fmax (High (L3 fuzzified)) (High (L4 fuzzified))))
        (Severe (output_terms self)) in
  let rule_significant :=
    map (np_fmin (np_fmax (High (L1 fuzzified)) (High (L2 fuzzified))))
        (Significant (output_terms self)) in
  let medium_avg :=
    np_mean [Medium (L1 fuzzified); Medium (L2 fuzzified);
             Medium (L3 fuzzified); Medium (L4 fuzzified)] in
  let rule_moderate := map (np_fmin medium_avg) (Moderate (output_terms self)) in
  let rule_minor :=
    map (np_fmin (np_fmax (Medium (L1 fuzzified)) (Low (L2 fuzzified))))
        (Minor (output_terms self)) in
  aggregated ← np_fmax_reduce
    [rule0; rule_severe; rule_significant; rule_moderate; rule_minor];
  peak ← np_max aggregated;
  if Qltb peak (6 # 100)
  then np_zip Qplus aggregated
         (map (fun v => v * min_memb) (Negligible (output_terms self)))
  else mret aggregated.

(** The input sanitization [max(0.0, min(float(v), 1.0))]. *)
Definition sanitize (v : Q) : Q := py_max 0 (py_min v 1).

(** The comprehension that fuzzifies one input value. *)
Definition fuzzify (self : t) (min_memb val : Q) : InputTerms Q :=
  let degree mf := py_max (interp_membership (x self) mf val) (min_memb * (1 # 10)) in
  {| Low := degree (Low (input_terms self));
     Medium := degree (Medium (input_terms self));
     High := degree (High (input_terms self)) |}.

(** The body of the [try] block. *)
Definition try_block (self : t) (fuzzified : Fuzzified) (min_memb : Q) : result Q :=
  aggregated ← _apply_rules self fuzzified min_memb;
  dcr ← defuzz (x self) aggregated "centroid";
  mret (py_round (py_max (py_min dcr 1) 0) 4).

Definition calculate_dcr (self : t) (s1 s2 s3 s4 : Q) : Q :=
  let v1 := sanitize s1 in
  let v2 := sanitize s2 in
  let v3 := sanitize s3 in
  let v4 := sanitize s4 in
  let inputs := [v1; v2; v3; v4] in
  let min_memb := py_max (1 # 1000) (np_mean inputs) in
  if Qltb (np_mean inputs) (2 # 100) then 0
  else
    let fuzzified :=
      {| L1 := fuzzify self min_memb v1;
         L2 := fuzzify self min_memb v2;
         L3 := fuzzify self min_memb v3;
         L4 := fuzzify self min_memb v4 |} in
    match try_block self fuzzified min_memb with
    | Ok dcr => dcr
    | Raise _ => py_round min_memb 3
    end.

End Engine.
End FuzzySystem.

(** ** A reference implementation of the scikit-fuzzy interface *)

Module Reference.

(** Modelled from the spec: scikit-fuzzy's [trimf] is not part of the
    repository.  A triangle with control points [a <= b <= c] and peak at [b]:
    zero outside [(a, c)], linear on both sides of the peak. *)
Definition trimf_at (a b c v : Q) : Q :=
  if Qeqb v b then 1
  else if Qltb a v && Qltb v b then (v - a) / (b - a)
  else if Qltb b v && Qltb v c then (c - v) / (c - b)
  else 0.

Definition trimf (x abc : list Q) : list Q :=
  match abc with
  | [a; b; c] => map (trimf_at a b c) x
  | _ => []
  end.

(** Modelled from the spec: scikit-fuzzy's [trapmf] is not part of the
    repository.  A trapezoid with control points [a <= b <= c <= d]: ramp-up
    on [[a, b]], plateau on [[b, c]], ramp-down on [[c, d]]. *)
Definition trapmf_at (a b c d v : Q) : Q :=
  if Qltb d v then 0
  else if Qltb v a then 0
  else if negb (Qltb v c) then trimf_at c c d v
  else if negb (Qltb b v) then trimf_at a b b v
  else 1.

Definition trapmf (x abcd : list Q) : list Q :=
  match abcd with
  | [a; b; c; d] => map (trapmf_at a b c d) x
  | _ => []
  end.

(** Linear interpolation between neighbouring samples. *)
Fixpoint interp (xs ys : list Q) (xx : Q) : Q :=
  match xs, ys with
  | x0 :: ((x1 :: _) as xs'), y0 :: ((y1 :: _) as ys') =>
      if Qltb xx x1 then y0 + (xx - x0) * ((y1 - y0) / (x1 - x0))
      else interp xs' ys' xx
  | [_], [y0] => y0
  | _, _ => 0
  end.

(** Modelled from the spec: scikit-fuzzy's [interp_membership] is not part of
    the repository.  The membership function, piecewise linear through its
    samples, evaluated at [xx]; zero outside the sampled domain. *)
Definition interp_membership (x xmf : list Q) (xx : Q) : Q :=
  match x with
  | [] => 0
  | x0 :: _ =>
      if Qltb xx x0 then 0
      else if Qltb (List.last x 0) xx then 0
      else interp x xmf xx
  end.

(** Modelled from the spec: scikit-fuzzy's [defuzz] is not part of the
    repository.  The centroid [Σ x_i * mfx_i / Σ mfx_i] over the sampled
    domain; a zero denominator is a failure. *)
Definition defuzz (x mfx : list Q) (mode : string) : result Q :=
  if decide (mode = "centroid") then
    if decide (length x = length mfx) then
      let total := py_sum mfx in
      if Qeqb total 0 then Raise AssertionError
      else Ok (py_sum (zip_with Qmult x mfx) / total)
    else Raise AssertionError
  else Raise ValueError.

End Reference.

#[global] Instance reference_skfuzzy : Skfuzzy := {|
  trapmf := Reference.trapmf;
  trimf := Reference.trimf;
  interp_membership := Reference.interp_membership;
  defuzz := Reference.defuzz
|}.

(** An engine whose defuzzification always fails: it exercises the fallback
    of [calculate_dcr]. *)
Definition failing_skfuzzy : Skfuzzy := {|
  trapmf := Reference.trapmf;
  trimf := Reference.trimf;
  interp_membership := Reference.interp_membership;
  defuzz := fun _ _ _ => Raise AssertionError
|}.

(** ** [src/core/dcr_calculator.py] *)

(** A row of experimental data:
    [bdc_level, model, t1, t2, t3, t4, acc = row]. *)
Record Row : Type := {
  row_bdc_level : Z;
  row_model : string;
  row_t1 : Q;
  row_t2 : Q;
  row_t3 : Q;
  row_t4 : Q;
  row_acc : Q
}.

(** The dictionary appended to [results] for each row. *)
Record ResultRecord : Type := {
  model : string;
  bdc_level : Z;
  dcr : Q;
  raw_acc : Q;
  adj_acc : Q;
  delta : Q
}.

(** The local variables of [process_experiment_data]. *)
Record Locals : Type := {
  results : list ResultRecord;
  ground_truths : gmap string Q;
  gt_list : list Q;
  pred_list : list Q;
  dcr_values : list Q;
  raw_acc_values : list Q
}.

(** The dictionary [process_experiment_data] returns. *)
Record Report : Type := {
  report_results : list ResultRecord;
  average_error : Q;
  correlation : Q;
  p_value : Q
}.

(** [not l] on a list. *)
Definition py_not {A : Type} (l : list A) : bool :=
  match l with
  | [] => true
  | _ :: _ => false
  end.

(** [a / n] for a float [a] and a length [n]. *)
Definition py_div (a : Q) (n : nat) : result Q :=
  match n with
  | O => Raise ZeroDivisionError
  | S _ => Ok (a / inject_Z (Z.of_nat n))
  end.

Module DCRCalculator.
Section Calculator.
Context `{Skfuzzy} `{ScipyStats}.

Record t : Type := {
  fuzzy_system : FuzzySystem.t
}.

Definition __init__ : t := {| fuzzy_system := FuzzySystem.__init__ |}.

Definition calculate_dcr (self : t) (s1 s2 s3 s4 : Q) : Q :=
  FuzzySystem.calculate_dcr (fuzzy_system self) s1 s2 s3 s4.

Definition calculate_adjusted_accuracy (raw_accuracy dcr_factor : Q) : Q :=
  raw_accuracy * (1 - dcr_factor).

Definition calculate_delta (baseline_adjusted current_adjusted : Q) : Q :=
  Qabs (current_adjusted - baseline_adjusted).

Definition calculate_average_error (ground_truths predictions : list Q) : result Q :=
  if py_not ground_truths || py_not predictions then Ok 0
  else
    let errors := zip_with (fun gt pred => Qabs (gt - pred)) ground_truths predictions in
    py_div (py_sum errors) (length errors).

Definition calculate_correlation (dcr_values accuracy_values : list Q)
  : result (Q * Q) :=
  if (length dcr_values <? 2)%nat || (length accuracy_values <? 2)%nat
  then Ok (0, 1)
  else pearsonr dcr_values accuracy_values.

Definition initial_locals : Locals := {|
  results := [];
  ground_truths := ∅;
  gt_list := [];
  pred_list := [];
  dcr_values := [];
  raw_acc_values := []
|}.

(** One iteration of the loop [for row in data]. *)
Definition process_row (self : t) (st : Locals) (row : Row) : Locals :=
  let dcr := calculate_dcr self (row_t1 row) (row_t2 row) (row_t3 row) (row_t4 row) in
  let adj_acc := calculate_adjusted_accuracy (row_acc row) dcr in
  let dcr_values := dcr_values st ++ [dcr] in
  let raw_acc_values := raw_acc_values st ++ [row_acc row] in
  let record delta :=
    {| model := row_model row;
       bdc_level := row_bdc_level row;
       dcr := dcr;
       raw_acc := row_acc row;
       adj_acc := adj_acc;
       delta := delta |} in
  if (row_bdc_level row =? 0)%Z then
    {| results := results st ++ [record 0];
       ground_truths := <[row_model row := adj_acc]> (ground_truths st);
       gt_list := gt_list st;
       pred_list := pred_list st;
       dcr_values := dcr_values;
       raw_acc_values := raw_acc_values |}
  else
    match ground_truths st !! row_model row with
    | Some baseline =>
        {| results := results st ++ [record (calculate_delta baseline adj_acc)];
           ground_truths := ground_truths st;
           gt_list := gt_list st ++ [baseline];
           pred_list := pred_list st ++ [adj_acc];
           dcr_values := dcr_values;
           raw_acc_values := raw_acc_values |}
    | None =>
        {| results := results st ++ [record 0];
           ground_truths := ground_truths st;
           gt_list := gt_list st;
           pred_list := pred_list st;
           dcr_values := dcr_values;
           raw_acc_values := raw_acc_values |}
    end.

(** The loop of [process_experiment_data]. *)
Definition process_rows (self : t) (data : list Row) : Locals :=
  foldl (process_row self) initial_locals data.

Definition process_experiment_data (self : t) (data : list Row) : result Report :=
  let st := process_rows self data in
  avg_error ← calculate_average_error (gt_list st) (pred_list st);
  '(corr_coef, p_value) ← calculate_correlation (dcr_values st) (raw_acc_values st);
  mret {| report_results := results st;
          average_error := avg_error;
          correlation := corr_coef;
          p_value := p_value |}.

End Calculator.
End DCRCalculator.

(** ** [config/settings.py] *)

Record Settings : Type := {
  negligible_threshold : Q;
  smoothing_threshold : Q;
  min_membership : Q
}.

Definition DCR_SETTINGS : Settings := {|
  negligible_threshold := 2 # 100;
  smoothing_threshold := 6 # 100;
  min_membership := 1 # 1000
|}.

(** ** The engine of the specification

    Sections 4.1, 6 and 9 of the specification describe an engine that
    receives the three thresholds as configuration at construction.  It is
    written here after the specification's words, step by step, to be compared
    with [FuzzySystem]. *)

Module SpecEngine.
Section Engine.
Context `{Skfuzzy}.

Record t : Type := {
  x : list Q;
  input_terms : InputTerms (list Q);
  output_terms : OutputTerms;
  settings : Settings
}.

Definition __init__ (config : Settings) : t :=
  let x := np_linspace 0 1 101 in
  {| x := x;
     input_terms := FuzzySystem._setup_input_membership x;
     output_terms := FuzzySystem._setup_output_membership x;
     settings := config |}.

(** Steps 5 and 6: the rule set, then the smoothing correction when the peak
    of the aggregate is below the smoothing threshold. *)
Definition _apply_rules (self : t) (fuzzified : Fuzzified) (min_memb : Q)
  : result (list Q) :=
  let r0 :=
    np_fmin (np_fmin (Low (L1 fuzzified)) (Low (L2 fuzzified)))
            (np_fmin (Low (L3 fuzzified)) (Low (L4 fuzzified))) in
  let r_severe := np_fmax (High (L3 fuzzified)) (High (L4 fuzzified)) in
  let r_significant := np_fmax (High (L1 fuzzified)) (High (L2 fuzzified)) in
  let r_moderate :=
    np_mean [Medium (L1 fuzzified); Medium (L2 fuzzified);
             Medium (L3 fuzzified); Medium (L4 fuzzified)] in
  let r_minor := np_fmax (Medium (L1 fuzzified)) (Low (L2 fuzzified)) in
  aggregated ← np_fmax_reduce
    [map (np_fmin r0) (Negligible (output_terms self));
     map (np_fmin r_severe) (Severe (output_terms self));
     map (np_fmin r_significant) (Significant (output_terms self));
     map (np_fmin r_moderate) (Moderate (output_terms self));
     map (np_fmin r_minor) (Minor (output_terms self))];
  peak ← np_max aggregated;
  if Qltb peak (smoothing_threshold (settings self))
  then np_zip Qplus aggregated
         (map (fun v => v * min_memb) (Negligible (output_terms self)))
  else mret aggregated.

(** Step 4: the membership degree of each term, floored at a tenth of
    [min_memb]. *)
Definition fuzzify (self : t) (min_memb val : Q) : InputTerms Q :=
  let degree mf := py_max (interp_membership (x self) mf val) (min_memb * (1 # 10)) in
  {| Low := degree (Low (input_terms self));
     Medium := degree (Medium (input_terms self));
     High := degree (High (input_terms self)) |}.

Definition calculate_dcr (self : t) (s1 s2 s3 s4 : Q) : Q :=
  (* step 1 *)
  let v1 := FuzzySystem.sanitize s1 in
  let v2 := FuzzySystem.sanitize s2 in
  let v3 := FuzzySystem.sanitize s3 in
  let v4 := FuzzySystem.sanitize s4 in
  (* step 2 *)
  let mean_input := np_mean [v1; v2; v3; v4] in
  if Qltb mean_input (negligible_threshold (settings self)) then 0
  else
    (* step 3 *)
    let min_memb := py_max (min_membership (settings self)) mean_input in
    let fuzzified :=
      {| L1 := fuzzify self min_memb v1;
         L2 := fuzzify self min_memb v2;
         L3 := fuzzify self min_memb v3;
         L4 := fuzzify self min_memb v4 |} in
    (* steps 5 to 8 *)
    match (aggregated ← _apply_rules self fuzzified min_memb;
           dcr ← defuzz (x self) aggregated "centroid";
           mret (py_round (py_max (py_min dcr 1) 0) 4)) with
    | Ok dcr => dcr
    | Raise _ => py_round min_memb 3
    end.

End Engine.
End SpecEngine.

(** ** What the specification says of the rows

    The quantities of section 3 of the specification, defined on the list of
    rows without the loop and its dictionary. *)

Module RowSpec.
Section Rows.
Context `{Skfuzzy} `{ScipyStats}.
Variable self : DCRCalculator.t.

Definition row_dcr (row : Row) : Q :=
  DCRCalculator.calculate_dcr self (row_t1 row) (row_t2 row) (row_t3 row) (row_t4 row).

Definition row_adj_acc (row : Row) : Q :=
  DCRCalculator.calculate_adjusted_accuracy (row_acc row) (row_dcr row).

Definition is_baseline_of (m : string) (row : Row) : bool :=
  (row_bdc_level row =? 0)%Z && bool_decide (row_model row = m).

(** The baseline of model [m] after the rows [seen]: the adjusted accuracy of
    the last row of [seen] with [bdc_level == 0] and that model. *)
Fixpoint recorded_baseline (seen : list Row) (m : string) : option Q :=
  match seen with
  | [] => None
  | row :: rest =>
      match recorded_baseline rest m with
      | Some b => Some b
      | None => if is_baseline_of m row then Some (row_adj_acc row) else None
      end
  end.

(** The baseline of model [m] that the first matching row of [seen] gives. *)
Fixpoint first_baseline (seen : list Row) (m : string) : option Q :=
  match seen with
  | [] => None
  | row :: rest =>
      if is_baseline_of m row then Some (row_adj_acc row) else first_baseline rest m
  end.

(** The delta of [row] when the rows [seen] precede it. *)
Definition expected_delta (seen : list Row) (row : Row) : Q :=
  if (row_bdc_level row =? 0)%Z then 0
  else
    match recorded_baseline seen (row_model row) with
    | Some baseline => Qabs (row_adj_acc row - baseline)
    | None => 0
    end.

Definition expected_record (seen : list Row) (row : Row) : ResultRecord :=
  {| model := row_model row;
     bdc_level := row_bdc_level row;
     dcr := row_dcr row;
     raw_acc := row_acc row;
     adj_acc := row_adj_acc row;
     delta := expected_delta seen row |}.

(** The pair (baseline, current) of a contaminated row whose model has a
    baseline among the rows [seen] that precede it. *)
Definition error_pair (seen : list Row) (row : Row) : option (Q * Q) :=
  if (row_bdc_level row =? 0)%Z then None
  else
    match recorded_baseline seen (row_model row) with
    | Some baseline => Some (baseline, row_adj_acc row)
    | None => None
    end.

(** The pairs of all rows of [data], in row order. *)
Definition error_pairs (data : list Row) : list (Q * Q) :=
  omap (fun i => row ← data !! i; error_pair (take i data) row)
       (seq 0 (length data)).

(** The mean of [|baseline - current|] over a list of pairs. *)
Definition mean_abs_error (pairs : list (Q * Q)) : Q :=
  py_sum (map (fun bc => Qabs (fst bc - snd bc)) pairs)
  / inject_Z (Z.of_nat (length pairs)).

End Rows.
End RowSpec.

(** ** A stand-in for SciPy

    Closed examples need an implementation of [ScipyStats].  This one checks
    its arguments as [pearsonr] does; the pair it returns is the sum of the
    products of the paired elements and the number of pairs, not the Pearson
    statistics.  The general theorems hold for every implementation; the
    closed examples use its check of the lengths, which is SciPy's. *)

Definition paired_products (xs ys : list Q) : result (Q * Q) :=
  if decide (length xs = length ys) then
    if decide (2 <= length xs)%nat
    then Ok (py_sum (zip_with Qmult xs ys), inject_Z (Z.of_nat (length xs)))
    else Raise ValueError
  else Raise ValueError.

Lemma paired_products_returns (xs ys : list Q) :
  length xs = length ys -> (2 <= length xs)%nat ->
  exists rp, paired_products xs ys = Ok rp.
Proof.
  intros Hlen Hn. unfold paired_products.
  rewrite decide_True by exact Hlen. rewrite decide_True by exact Hn. eauto.
Qed.

#[global] Instance stand_in_scipy : ScipyStats := {|
  pearsonr := paired_products;
  pearsonr_returns := paired_products_returns
|}.

(** A configuration other than [DCR_SETTINGS]: a negligible threshold of 0.5. *)
Definition alternate_settings : Settings := {|
  negligible_threshold := 1 # 2;
  smoothing_threshold := 6 # 100;
  min_membership := 1 # 1000
|}.

(** ** Data of the closed examples *)

Definition example_calculator : DCRCalculator.t :=
  DCRCalculator.__init__ (H := reference_skfuzzy).

Definition example_row (level : Z) (name : string) (t : Q) (accuracy : Q) : Row :=
  {| row_bdc_level := level; row_model := name;
     row_t1 := t; row_t2 := t; row_t3 := t; row_t4 := t;
     row_acc := accuracy |}.

(** Two baseline rows of model M, a baseline row of model N, a contaminated
    row of M, and a contaminated row of a model with no baseline. *)
Definition first_M : Row := example_row 0 "M" 0 80.
Definition second_M : Row := example_row 0 "M" (1 # 10) 90.
Definition baseline_N : Row := example_row 0 "N" 0 60.
Definition contaminated_M : Row := example_row 1 "M" (1 # 2) 70.
Definition contaminated_P : Row := example_row 2 "P" 1 50.

Definition example_rows : list Row :=
  [first_M; second_M; baseline_N; contaminated_M; contaminated_P].

(** An engine whose output arrays do not have one length. *)
Definition ragged_engine : FuzzySystem.t := {|
  FuzzySystem.x := [0; 1];
  FuzzySystem.input_terms := {| Low := [1; 0]; Medium := [0; 0]; High := [0; 1] |};
  FuzzySystem.output_terms :=
    {| Negligible := [1; 0]; Minor := [0; 0]; Moderate := [0; 0; 0];
       Significant := [0; 0]; Severe := [0; 1] |}
|}.

(** * Properties *)

(** ** Numbers *)

Lemma Qltb_lt (a b : Q) : Qltb a b = true <-> a < b.
Proof.
  unfold Qltb. rewrite Qlt_alt.
  destruct (a ?= b); split; congruence.
Qed.

Lemma Qltb_ge (a b : Q) : Qltb a b = false <-> b <= a.
Proof.
  unfold Qltb. rewrite Qle_alt, <- Qgt_alt, Qlt_alt.
  destruct (a ?= b); split; congruence.
Qed.

Lemma Qeqb_eq (a b : Q) : Qeqb a b = true <-> a == b.
Proof.
  unfold Qeqb. rewrite Qeq_alt.
  destruct (a ?= b); split; congruence.
Qed.

(** Case analysis on every comparison of the goal. *)
Ltac case_Qltb :=
  repeat match goal with
  | |- context [Qltb ?a ?b] =>
      let E := fresh "E" in
      destruct (Qltb a b) eqn:E;
      [apply Qltb_lt in E | apply Qltb_ge in E]
  end.

Lemma py_max_spec (a b : Q) : a <= py_max a b /\ b <= py_max a b /\
  (py_max a b = a \/ py_max a b = b).
Proof. unfold py_max. case_Qltb; repeat split; auto; lra. Qed.

Lemma py_min_spec (a b : Q) : py_min a b <= a /\ py_min a b <= b /\
  (py_min a b = a \/ py_min a b = b).
Proof. unfold py_min. case_Qltb; repeat split; auto; lra. Qed.

Lemma clamp_range (d : Q) : 0 <= py_max (py_min d 1) 0 <= 1.
Proof. unfold py_max, py_min. case_Qltb; lra. Qed.

Lemma Qfloor_spec (q : Q) : inject_Z (Qfloor q) <= q < inject_Z (Qfloor q) + 1.
Proof.
  split; [apply Qfloor_le |].
  pose proof (Qlt_floor q) as Hlt.
  rewrite inject_Z_plus in Hlt. exact Hlt.
Qed.

Lemma round_half_even_bounds (q : Q) (n : Z) :
  0 <= q -> q <= inject_Z n ->
  (0 <= round_half_even q <= n)%Z.
Proof.
  intros H0 Hn.
  pose proof (Qfloor_spec q) as [Hlo Hhi].
  assert (Hf0 : (0 <= Qfloor q)%Z).
  { change 0%Z with (Qfloor 0). apply Qfloor_resp_le; exact H0. }
  assert (Hfn : (Qfloor q <= n)%Z).
  { rewrite Zle_Qle. lra. }
  unfold round_half_even. cbv zeta.
  destruct (Qcompare (q - inject_Z (Qfloor q)) (1 # 2)) eqn:E.
  - apply Qeq_alt in E. destruct (Z.even _); [lia |].
    assert (Qfloor q <> n) by (intros Heq; rewrite Heq in *; lra). lia.
  - lia.
  - apply Qgt_alt in E.
    assert (Qfloor q <> n) by (intros Heq; rewrite Heq in *; lra). lia.
Qed.

Lemma pow10_pos (n : nat) : 0 < inject_Z (10 ^ Z.of_nat n).
Proof.
  change 0 with (inject_Z 0). rewrite <- Zlt_Qlt.
  apply Z.pow_pos_nonneg; lia.
Qed.

(** Rounding to [n] decimals keeps a number of the unit interval inside it. *)
Lemma py_round_unit (q : Q) (n : nat) : 0 <= q <= 1 -> 0 <= py_round q n <= 1.
Proof.
  intros [H0 H1]. unfold py_round.
  set (scale := inject_Z (10 ^ Z.of_nat n)).
  pose proof (pow10_pos n) as Hs. fold scale in Hs.
  assert (Hlo : 0 <= q * scale) by nra.
  assert (Hhi : q * scale <= scale) by nra.
  destruct (round_half_even_bounds (q * scale) (10 ^ Z.of_nat n) Hlo Hhi)
    as [Ha Hb].
  rewrite Zle_Qle in Ha, Hb. fold scale in Hb.
  change (inject_Z 0) with 0 in Ha.
  split.
  - apply Qle_shift_div_l; lra.
  - apply Qle_shift_div_r; lra.
Qed.

Lemma np_mean_4 (a b c d : Q) : np_mean [a; b; c; d] == (a + b + c + d) * (1 # 4).
Proof. unfold np_mean, py_sum. simpl. field. Qed.

Lemma sanitize_range (v : Q) : 0 <= FuzzySystem.sanitize v <= 1.
Proof. unfold FuzzySystem.sanitize, py_max, py_min. case_Qltb; lra. Qed.

(** Sanitizing twice is sanitizing once: the result is one of [0], [v], [1]. *)
Lemma sanitize_idem (v : Q) :
  FuzzySystem.sanitize (FuzzySystem.sanitize v) = FuzzySystem.sanitize v.
Proof.
  unfold FuzzySystem.sanitize, py_max, py_min.
  destruct (Qltb 1 v) eqn:E1.
  - reflexivity.
  - destruct (Qltb 0 v) eqn:E2.
    + rewrite E1, E2. reflexivity.
    + reflexivity.
Qed.

Lemma mean_inputs_range (s1 s2 s3 s4 : Q) :
  0 <= np_mean [FuzzySystem.sanitize s1; FuzzySystem.sanitize s2;
                FuzzySystem.sanitize s3; FuzzySystem.sanitize s4] <= 1.
Proof.
  rewrite np_mean_4.
  pose proof (sanitize_range s1). pose proof (sanitize_range s2).
  pose proof (sanitize_range s3). pose proof (sanitize_range s4). lra.
Qed.

(** ** The fuzzy engine *)

Section EngineProperties.
Context `{Skfuzzy}.

(** What the [try] block returns is a rounded number of the unit interval. *)
Lemma try_block_unit (self : FuzzySystem.t) (fuzzified : Fuzzified) (min_memb r : Q) :
  FuzzySystem.try_block self fuzzified min_memb = Ok r -> 0 <= r <= 1.
Proof.
  unfold FuzzySystem.try_block, mbind, result_bind, mret, result_ret.
  destruct (FuzzySystem._apply_rules self fuzzified min_memb) as [agg | e];
    [| discriminate].
  destruct (defuzz (FuzzySystem.x self) agg "centroid") as [d | e];
    [| discriminate].
  intros [= <-]. apply py_round_unit, clamp_range.
Qed.

(** The fallback value is a number of the unit interval. *)
Lemma fallback_unit (s1 s2 s3 s4 : Q) :
  0 <= py_round
         (py_max (1 # 1000)
            (np_mean [FuzzySystem.sanitize s1; FuzzySystem.sanitize s2;
                      FuzzySystem.sanitize s3; FuzzySystem.sanitize s4])) 3 <= 1.
Proof.
  apply py_round_unit.
  pose proof (mean_inputs_range s1 s2 s3 s4) as [Hlo Hhi].
  unfold py_max. case_Qltb; lra.
Qed.

(** The try block fails exactly when the rules or the defuzzification do. *)
Lemma try_block_raises (self : FuzzySystem.t) (fuzzified : Fuzzified)
    (min_memb : Q) (e : exception) :
  FuzzySystem.try_block self fuzzified min_memb = Raise e <->
  FuzzySystem._apply_rules self fuzzified min_memb = Raise e \/
  exists aggregated,
    FuzzySystem._apply_rules self fuzzified min_memb = Ok aggregated /\
    defuzz (FuzzySystem.x self) aggregated "centroid" = Raise e.
Proof.
  unfold FuzzySystem.try_block, mbind, result_bind, mret, result_ret.
  destruct (FuzzySystem._apply_rules self fuzzified min_memb) as [agg | e'].
  - destruct (defuzz (FuzzySystem.x self) agg "centroid") as [d | e''] eqn:Ed.
    + split; [discriminate |].
      intros [Hr | (agg' & [= <-] & Hd)]; congruence.
    + split.
      * intros [= ->]. right. exists agg. split; [reflexivity | exact Ed].
      * intros [Hr | (agg' & [= <-] & Hd)]; congruence.
  - split.
    + intros [= ->]. left. reflexivity.
    + intros [Hr | (agg' & Ha & _)]; congruence.
Qed.

(** C1.  Whatever the four inputs are, and whatever the library returns or
    raises, [calculate_dcr] returns a number of [[0, 1]]: on the short circuit,
    after a successful defuzzification and on the fallback.  Inputs outside
    [[0, 1]] are not rejected: the result is the result at the clamped
    inputs. *)
Theorem calculate_dcr_unit_interval (self : FuzzySystem.t) (s1 s2 s3 s4 : Q) :
  0 <= FuzzySystem.calculate_dcr self s1 s2 s3 s4 <= 1 /\
  FuzzySystem.calculate_dcr self s1 s2 s3 s4 =
  FuzzySystem.calculate_dcr self
    (FuzzySystem.sanitize s1) (FuzzySystem.sanitize s2)
    (FuzzySystem.sanitize s3) (FuzzySystem.sanitize s4).
Proof.
  split.
  - unfold FuzzySystem.calculate_dcr. cbv zeta.
    destruct (Qltb _ (2 # 100)); [lra |].
    destruct (FuzzySystem.try_block _ _ _) as [r | e] eqn:Et.
    + exact (try_block_unit _ _ _ _ Et).
    + apply fallback_unit.
  - unfold FuzzySystem.calculate_dcr. rewrite !sanitize_idem. reflexivity.
Qed.

(** C2.  When the mean of the four clamped inputs is strictly below 0.02,
    [calculate_dcr] returns exactly 0, whatever the library does: no
    membership degree is needed. *)
Theorem calculate_dcr_negligible (self : FuzzySystem.t) (s1 s2 s3 s4 : Q) :
  np_mean [FuzzySystem.sanitize s1; FuzzySystem.sanitize s2;
           FuzzySystem.sanitize s3; FuzzySystem.sanitize s4] < 2 # 100 ->
  FuzzySystem.calculate_dcr self s1 s2 s3 s4 = 0.
Proof.
  intros Hmean. apply Qltb_lt in Hmean.
  unfold FuzzySystem.calculate_dcr. cbv zeta. rewrite Hmean. reflexivity.
Qed.

(** C3.  Past the short circuit, when the rule aggregation raises, or when it
    returns an aggregate on which the centroid defuzzification raises,
    [calculate_dcr] returns [round(min_memb, 3)] with
    [min_memb = max(0.001, mean of the clamped inputs)].  The function returns
    a number in every case: no exception reaches the caller. *)
Theorem calculate_dcr_fallback (self : FuzzySystem.t) (s1 s2 s3 s4 : Q)
    (e : exception) :
  let v1 := FuzzySystem.sanitize s1 in
  let v2 := FuzzySystem.sanitize s2 in
  let v3 := FuzzySystem.sanitize s3 in
  let v4 := FuzzySystem.sanitize s4 in
  let min_memb := py_max (1 # 1000) (np_mean [v1; v2; v3; v4]) in
  let fuzzified :=
    {| L1 := FuzzySystem.fuzzify self min_memb v1;
       L2 := FuzzySystem.fuzzify self min_memb v2;
       L3 := FuzzySystem.fuzzify self min_memb v3;
       L4 := FuzzySystem.fuzzify self min_memb v4 |} in
  2 # 100 <= np_mean [v1; v2; v3; v4] ->
  (FuzzySystem._apply_rules self fuzzified min_memb = Raise e \/
   exists aggregated,
     FuzzySystem._apply_rules self fuzzified min_memb = Ok aggregated /\
     defuzz (FuzzySystem.x self) aggregated "centroid" = Raise e) ->
  FuzzySystem.calculate_dcr self s1 s2 s3 s4 = py_round min_memb 3.
Proof.
  intros v1 v2 v3 v4 min_memb fuzzified Hmean Hfail.
  apply Qltb_ge in Hmean. apply try_block_raises in Hfail.
  unfold FuzzySystem.calculate_dcr. cbv zeta.
  fold v1 v2 v3 v4. rewrite Hmean.
  fold min_memb. fold fuzzified. rewrite Hfail. reflexivity.
Qed.

End EngineProperties.

(** The reference centroid fails on an aggregate whose total is zero. *)
Lemma reference_defuzz_zero_total (x mfx : list Q) :
  py_sum mfx == 0 -> exists e, Reference.defuzz x mfx "centroid" = Raise e.
Proof.
  intros Hz. apply Qeqb_eq in Hz. unfold Reference.defuzz.
  rewrite decide_True by reflexivity.
  destruct (decide (length x = length mfx)); [rewrite Hz |]; eauto.
Qed.

Lemma calculate_dcr_negligible_witness :
  np_mean [FuzzySystem.sanitize (1 # 100); FuzzySystem.sanitize 0;
           FuzzySystem.sanitize (3 # 100); FuzzySystem.sanitize (-5 # 1)]
    < 2 # 100 /\
  FuzzySystem.calculate_dcr (H := reference_skfuzzy) FuzzySystem.__init__
    (1 # 100) 0 (3 # 100) (-5 # 1) = 0.
Proof.
  split.
  - reflexivity.
  - apply (calculate_dcr_negligible (H := reference_skfuzzy)). reflexivity.
Defined.

Lemma calculate_dcr_fallback_witness :
  FuzzySystem.calculate_dcr (H := failing_skfuzzy) FuzzySystem.__init__
    (1 # 10) (1 # 10) (1 # 10) (1 # 10) = py_round (py_max (1 # 1000) (1 # 10)) 3.
Proof.
  apply (calculate_dcr_fallback (H := failing_skfuzzy) FuzzySystem.__init__
           (1 # 10) (1 # 10) (1 # 10) (1 # 10) AssertionError).
  - vm_compute. discriminate.
  - right. eexists. split; [vm_compute; reflexivity | reflexivity].
Defined.

(** ** The contamination analyzer *)

Section AnalyzerProperties.
Context `{Skfuzzy} `{ScipyStats}.
Variable self : DCRCalculator.t.

Local Abbreviation process_rows := (DCRCalculator.process_rows self).
Local Abbreviation process_row := (DCRCalculator.process_row self).
Local Abbreviation recorded_baseline := (RowSpec.recorded_baseline self).
Local Abbreviation row_adj_acc := (RowSpec.row_adj_acc self).
Local Abbreviation row_dcr := (RowSpec.row_dcr self).

Lemma process_rows_snoc (seen : list Row) (row : Row) :
  process_rows (seen ++ [row]) = process_row (process_rows seen) row.
Proof. unfold DCRCalculator.process_rows. rewrite foldl_app. reflexivity. Qed.

(** *** The recorded baseline *)

Lemma recorded_baseline_snoc (seen : list Row) (row : Row) (m : string) :
  recorded_baseline (seen ++ [row]) m =
  if RowSpec.is_baseline_of m row then Some (row_adj_acc row)
  else recorded_baseline seen m.
Proof.
  induction seen as [| r seen IH]; simpl.
  - destruct (RowSpec.is_baseline_of m row); reflexivity.
  - rewrite IH. destruct (RowSpec.is_baseline_of m row); [reflexivity |].
    reflexivity.
Qed.

(** No baseline is recorded exactly when no row of the model had
    [bdc_level == 0]. *)
Lemma recorded_baseline_None (seen : list Row) (m : string) :
  recorded_baseline seen m = None <->
  forall row, row ∈ seen -> RowSpec.is_baseline_of m row = false.
Proof.
  induction seen as [| r seen IH]; simpl.
  - split; [| reflexivity]. intros _ row Hin. inversion Hin.
  - destruct (recorded_baseline seen m) as [b |] eqn:Eb.
    + split; [discriminate |]. intros Hall.
      assert (Hnone : Some b = None); [| discriminate].
      apply IH. intros row Hin. apply Hall. right. exact Hin.
    + destruct (RowSpec.is_baseline_of m r) eqn:Er.
      * split; [discriminate |]. intros Hall.
        rewrite Hall in Er by left. discriminate.
      * split; [| reflexivity]. intros _ row Hin.
        apply elem_of_cons in Hin as [-> | Hin]; [exact Er |].
        apply IH; [reflexivity | exact Hin].
Qed.

(** The recorded baseline is the adjusted accuracy of the last baseline row of
    the model. *)
Lemma recorded_baseline_last (pre post : list Row) (b : Row) (m : string) :
  RowSpec.is_baseline_of m b = true ->
  (forall row, row ∈ post -> RowSpec.is_baseline_of m row = false) ->
  recorded_baseline (pre ++ b :: post) m = Some (row_adj_acc b).
Proof.
  intros Hb Hpost. apply recorded_baseline_None in Hpost.
  induction pre as [| r pre IH]; simpl.
  - rewrite Hpost, Hb. reflexivity.
  - rewrite IH. reflexivity.
Qed.

Lemma recorded_baseline_Some (seen : list Row) (m : string) (v : Q) :
  recorded_baseline seen m = Some v ->
  exists pre b post,
    seen = pre ++ b :: post /\
    RowSpec.is_baseline_of m b = true /\
    v = row_adj_acc b /\
    forall row, row ∈ post -> RowSpec.is_baseline_of m row = false.
Proof.
  induction seen as [| r seen IH]; simpl; [discriminate |].
  destruct (recorded_baseline seen m) as [b |] eqn:Eb.
  - intros [= <-]. destruct (IH eq_refl) as (pre & b' & post & -> & Hb & Hv & Hp).
    exists (r :: pre), b', post. auto.
  - destruct (RowSpec.is_baseline_of m r) eqn:Er; [| discriminate].
    intros [= <-]. exists [], r, seen. repeat split; auto.
    apply recorded_baseline_None. exact Eb.
Qed.

(** The dictionary of the loop holds the recorded baseline of every model. *)
Lemma ground_truths_spec (seen : list Row) (m : string) :
  ground_truths (process_rows seen) !! m = recorded_baseline seen m.
Proof.
  induction seen as [| row seen IH] using rev_ind.
  - reflexivity.
  - rewrite process_rows_snoc, recorded_baseline_snoc.
    unfold DCRCalculator.process_row, RowSpec.is_baseline_of.
    destruct (row_bdc_level row =? 0)%Z; simpl.
    + rewrite lookup_insert. case_decide as Hm.
      * rewrite bool_decide_eq_true_2 by exact Hm. reflexivity.
      * rewrite bool_decide_eq_false_2 by exact Hm. exact IH.
    + destruct (ground_truths (process_rows seen) !! row_model row); exact IH.
Qed.

(** *** The result records *)

Lemma results_snoc (seen : list Row) (row : Row) :
  results (process_rows (seen ++ [row])) =
  results (process_rows seen) ++ [RowSpec.expected_record self seen row].
Proof.
  rewrite process_rows_snoc.
  unfold DCRCalculator.process_row, RowSpec.expected_record, RowSpec.expected_delta.
  rewrite ground_truths_spec.
  destruct (row_bdc_level row =? 0)%Z; [reflexivity |].
  destruct (recorded_baseline seen (row_model row)); reflexivity.
Qed.

Lemma results_length (data : list Row) :
  length (results (process_rows data)) = length data.
Proof.
  induction data as [| row data IH] using rev_ind; [reflexivity |].
  rewrite results_snoc, !length_app, IH. reflexivity.
Qed.

Lemma results_lookup (data : list Row) (i : nat) (row : Row) :
  data !! i = Some row ->
  results (process_rows data) !! i =
  Some (RowSpec.expected_record self (take i data) row).
Proof.
  revert i row. induction data as [| r data IH] using rev_ind; intros i row Hi.
  - discriminate.
  - rewrite results_snoc.
    destruct (decide (i < length data)%nat) as [Hlt | Hge].
    + rewrite lookup_app_l in Hi by exact Hlt.
      rewrite lookup_app_l by (rewrite results_length; exact Hlt).
      rewrite take_app_le by lia. apply IH. exact Hi.
    + pose proof (lookup_lt_Some _ _ _ Hi) as Hb.
      rewrite length_app in Hb. simpl in Hb.
      assert (i = length data) as -> by lia.
      rewrite list_lookup_middle in Hi by reflexivity. injection Hi as ->.
      rewrite take_app_length.
      apply list_lookup_middle. symmetry. apply results_length.
Qed.

(** *** The lists of the statistics *)

Lemma values_spec (data : list Row) :
  dcr_values (process_rows data) = map row_dcr data /\
  raw_acc_values (process_rows data) = map row_acc data.
Proof.
  induction data as [| row data [IHd IHr]] using rev_ind; [split; reflexivity |].
  rewrite process_rows_snoc, !map_app. simpl.
  unfold DCRCalculator.process_row.
  destruct (row_bdc_level row =? 0)%Z; simpl; [rewrite IHd, IHr; split; reflexivity |].
  destruct (ground_truths (process_rows data) !! row_model row); simpl;
    rewrite IHd, IHr; split; reflexivity.
Qed.

Lemma error_pairs_snoc (seen : list Row) (row : Row) :
  RowSpec.error_pairs self (seen ++ [row]) =
  RowSpec.error_pairs self seen ++ option_list (RowSpec.error_pair self seen row).
Proof.
  unfold RowSpec.error_pairs. rewrite length_app. simpl.
  rewrite seq_app, omap_app. f_equal.
  - apply list_omap_ext, Forall_Forall2_diag, Forall_seq. intros j Hj.
    rewrite lookup_app_l by lia.
    destruct (seen !! j); simpl; [rewrite take_app_le by lia |]; reflexivity.
  - simpl. rewrite list_lookup_middle by reflexivity. simpl.
    rewrite take_app_length.
    destruct (RowSpec.error_pair self seen row); reflexivity.
Qed.

Lemma error_lists_spec (data : list Row) :
  gt_list (process_rows data) = map fst (RowSpec.error_pairs self data) /\
  pred_list (process_rows data) = map snd (RowSpec.error_pairs self data).
Proof.
  induction data as [| row data [IHg IHp]] using rev_ind; [split; reflexivity |].
  rewrite process_rows_snoc, error_pairs_snoc, !map_app.
  unfold DCRCalculator.process_row, RowSpec.error_pair.
  rewrite ground_truths_spec.
  destruct (row_bdc_level row =? 0)%Z; simpl.
  - rewrite !app_nil_r. split; assumption.
  - destruct (recorded_baseline data (row_model row)); simpl.
    + rewrite IHg, IHp. split; reflexivity.
    + rewrite !app_nil_r. split; assumption.
Qed.

Lemma zip_with_fst_snd {A B C : Type} (f : A -> B -> C) (l : list (A * B)) :
  zip_with f (map fst l) (map snd l) = map (fun ab => f (fst ab) (snd ab)) l.
Proof. induction l as [| ab l IH]; simpl; [| rewrite IH]; reflexivity. Qed.

Lemma average_error_of_pairs (pairs : list (Q * Q)) :
  DCRCalculator.calculate_average_error (map fst pairs) (map snd pairs) =
  Ok (match pairs with
      | [] => 0
      | _ :: _ => RowSpec.mean_abs_error pairs
      end).
Proof.
  destruct pairs as [| bc pairs]; [reflexivity |].
  set (l := bc :: pairs).
  unfold DCRCalculator.calculate_average_error, RowSpec.mean_abs_error.
  rewrite zip_with_fst_snd, length_map. reflexivity.
Qed.

Lemma calculate_correlation_returns (xs ys : list Q) :
  length xs = length ys ->
  exists rp, DCRCalculator.calculate_correlation xs ys = Ok rp.
Proof.
  intros Hlen. unfold DCRCalculator.calculate_correlation. rewrite <- Hlen.
  destruct (length xs <? 2)%nat eqn:En; simpl; [eauto |].
  apply Nat.ltb_ge in En. apply pearsonr_returns; assumption.
Qed.

(** [process_experiment_data] returns, and its report is made of the final
    values of the loop. *)
Lemma process_experiment_data_returns (data : list Row) :
  exists report,
    DCRCalculator.process_experiment_data self data = Ok report /\
    report_results report = results (process_rows data) /\
    DCRCalculator.calculate_average_error
      (gt_list (process_rows data)) (pred_list (process_rows data))
    = Ok (average_error report) /\
    DCRCalculator.calculate_correlation (map row_dcr data) (map row_acc data)
    = Ok (correlation report, p_value report).
Proof.
  unfold DCRCalculator.process_experiment_data.
  destruct (values_spec data) as [Hd Hr].
  destruct (error_lists_spec data) as [Hg Hp].
  rewrite Hd, Hr, Hg, Hp, average_error_of_pairs.
  destruct (calculate_correlation_returns (map row_dcr data) (map row_acc data))
    as [[r p] Hc]; [rewrite !length_map; reflexivity |].
  rewrite Hc. simpl. eexists. repeat split; reflexivity.
Qed.

(** *** The claims on the analyzer *)

(** C4.  [process_experiment_data] returns a report with one record per row,
    in row order.  The record of a row carries the row's model, level, DCR,
    raw and adjusted accuracy.  At [bdc_level == 0] its delta is 0 and the
    adjusted accuracy is recorded as the baseline of the model; at another
    level its delta is the absolute difference between its adjusted accuracy
    and the baseline recorded for its model by the rows before it, and 0 when
    no earlier row of that model had [bdc_level == 0]. *)
Theorem process_experiment_data_records (data : list Row) :
  exists report,
    DCRCalculator.process_experiment_data self data = Ok report /\
    length (report_results report) = length data /\
    forall (i : nat) (row : Row), data !! i = Some row ->
      exists rec,
        report_results report !! i = Some rec /\
        model rec = row_model row /\
        bdc_level rec = row_bdc_level row /\
        dcr rec = row_dcr row /\
        raw_acc rec = row_acc row /\
        adj_acc rec = row_adj_acc row /\
        (row_bdc_level row = 0%Z ->
           delta rec = 0 /\
           ground_truths (process_rows (take (S i) data)) !! row_model row
           = Some (adj_acc rec)) /\
        (row_bdc_level row <> 0%Z ->
           match recorded_baseline (take i data) (row_model row) with
           | Some baseline => delta rec = Qabs (adj_acc rec - baseline)
           | None => delta rec = 0
           end) /\
        ((forall earlier, earlier ∈ take i data ->
            RowSpec.is_baseline_of (row_model row) earlier = false) ->
         delta rec = 0).
Proof.
  destruct (process_experiment_data_returns data) as (report & Hrun & Hres & _).
  exists report. split; [exact Hrun |]. rewrite Hres.
  split; [apply results_length |].
  intros i row Hi. eexists. split; [apply results_lookup; exact Hi |]. simpl.
  do 5 (split; [reflexivity |]).
  split; [| split].
  - intros Hz. split.
    + unfold RowSpec.expected_delta.
      apply Z.eqb_eq in Hz. rewrite Hz. reflexivity.
    + rewrite (take_S_r _ _ _ Hi), ground_truths_spec, recorded_baseline_snoc.
      unfold RowSpec.is_baseline_of. apply Z.eqb_eq in Hz. rewrite Hz.
      rewrite bool_decide_eq_true_2 by reflexivity. reflexivity.
  - intros Hnz. unfold RowSpec.expected_delta.
    apply Z.eqb_neq in Hnz. rewrite Hnz.
    destruct (recorded_baseline (take i data) (row_model row)); reflexivity.
  - intros Hnone. apply recorded_baseline_None in Hnone.
    unfold RowSpec.expected_delta. rewrite Hnone.
    destruct (row_bdc_level row =? 0)%Z; reflexivity.
Qed.

(** C5.  The average error of the report is the mean of [|baseline - current|]
    over the pairs of the rows with [bdc_level != 0] whose model had a
    baseline recorded by an earlier row, all models together (0 when there is
    no such row); the correlation and the p-value are what
    [calculate_correlation] gives on the DCR values and the raw accuracies of
    all rows in row order, that is SciPy's [pearsonr] of the two lists as soon
    as there are two rows. *)
Theorem process_experiment_data_statistics (data : list Row) :
  exists report,
    DCRCalculator.process_experiment_data self data = Ok report /\
    (RowSpec.error_pairs self data = [] -> average_error report = 0) /\
    (RowSpec.error_pairs self data <> [] ->
     average_error report = RowSpec.mean_abs_error (RowSpec.error_pairs self data)) /\
    DCRCalculator.calculate_correlation (map row_dcr data) (map row_acc data)
    = Ok (correlation report, p_value report) /\
    ((2 <= length data)%nat ->
     pearsonr (map row_dcr data) (map row_acc data)
     = Ok (correlation report, p_value report)).
Proof.
  destruct (process_experiment_data_returns data)
    as (report & Hrun & _ & Havg & Hcorr).
  exists report. split; [exact Hrun |].
  destruct (error_lists_spec data) as [Hg Hp].
  rewrite Hg, Hp, average_error_of_pairs in Havg. injection Havg as Havg.
  repeat split.
  - intros He. rewrite He in Havg. congruence.
  - intros He. destruct (RowSpec.error_pairs self data); congruence.
  - exact Hcorr.
  - intros Hn. rewrite <- Hcorr. unfold DCRCalculator.calculate_correlation.
    rewrite !length_map.
    apply Nat.ltb_ge in Hn. rewrite Hn. reflexivity.
Qed.

(** C7, as amended.  With fewer than two paired samples
    [calculate_correlation] returns exactly (0.0, 1.0), without a call of the
    library that could fail.  On two lists of one length, at least 2, it
    returns a pair, and that pair is the Pearson coefficient and p-value that
    SciPy's [pearsonr] returns on the two lists.  On lists of different
    lengths that both have two elements or more there is no check: the lists
    go to [pearsonr] as they are, and the result is whatever [pearsonr] does
    with them. *)
Theorem calculate_correlation_cases (dcr_values accuracy_values : list Q) :
  ((length (zip dcr_values accuracy_values) < 2)%nat ->
   DCRCalculator.calculate_correlation dcr_values accuracy_values = Ok (0, 1)) /\
  (length dcr_values = length accuracy_values ->
   (2 <= length dcr_values)%nat ->
   exists r p,
     DCRCalculator.calculate_correlation dcr_values accuracy_values = Ok (r, p) /\
     pearsonr dcr_values accuracy_values = Ok (r, p)) /\
  ((2 <= length (zip dcr_values accuracy_values))%nat ->
   length dcr_values <> length accuracy_values ->
   DCRCalculator.calculate_correlation dcr_values accuracy_values
   = pearsonr dcr_values accuracy_values).
Proof.
  rewrite length_zip_with. unfold DCRCalculator.calculate_correlation.
  split; [| split].
  - intros Hn.
    destruct (Nat.ltb_spec (length dcr_values) 2);
      destruct (Nat.ltb_spec (length accuracy_values) 2); simpl;
      try reflexivity; lia.
  - intros Hlen Hn.
    destruct (pearsonr_returns dcr_values accuracy_values Hlen Hn) as [[r p] Hp].
    exists r, p. rewrite <- Hlen.
    apply Nat.ltb_ge in Hn. rewrite Hn. simpl. split; exact Hp.
  - intros Hn _.
    destruct (Nat.ltb_spec (length dcr_values) 2);
      destruct (Nat.ltb_spec (length accuracy_values) 2); simpl;
      try reflexivity; lia.
Qed.

(** C10.  A row with [bdc_level == 0] overwrites the baseline of its model and
    has delta 0, whatever rows came before it; a later contaminated row of the
    model, with no other baseline row of the model in between, has its delta
    computed against that row. *)
Theorem delta_against_latest_baseline (pre mid post : list Row) (b r : Row) :
  row_bdc_level b = 0%Z ->
  row_model b = row_model r ->
  row_bdc_level r <> 0%Z ->
  (forall row, row ∈ mid -> RowSpec.is_baseline_of (row_model r) row = false) ->
  exists report rec_b rec_r,
    DCRCalculator.process_experiment_data self (pre ++ b :: mid ++ r :: post)
    = Ok report /\
    report_results report !! length pre = Some rec_b /\
    delta rec_b = 0 /\
    ground_truths (process_rows (pre ++ [b])) !! row_model b = Some (row_adj_acc b) /\
    report_results report !! (length pre + S (length mid))%nat = Some rec_r /\
    delta rec_r = DCRCalculator.calculate_delta (row_adj_acc b) (row_adj_acc r).
Proof.
  intros Hb Hm Hr Hmid.
  set (data := pre ++ b :: mid ++ r :: post).
  destruct (process_experiment_data_returns data) as (report & Hrun & Hres & _).
  assert (Hib : data !! length pre = Some b).
  { unfold data. apply list_lookup_middle. reflexivity. }
  assert (Hir : data !! (length pre + S (length mid))%nat = Some r).
  { unfold data. rewrite lookup_app_r by lia.
    replace (length pre + S (length mid) - length pre)%nat
      with (S (length mid)) by lia.
    simpl. apply list_lookup_middle. reflexivity. }
  assert (Hbase : RowSpec.is_baseline_of (row_model r) b = true).
  { unfold RowSpec.is_baseline_of. apply Z.eqb_eq in Hb. rewrite Hb.
    rewrite bool_decide_eq_true_2 by exact Hm. reflexivity. }
  exists report. do 2 eexists. split; [exact Hrun |]. rewrite Hres.
  split; [apply results_lookup; exact Hib |].
  split.
  { simpl. unfold RowSpec.expected_delta.
    apply Z.eqb_eq in Hb. rewrite Hb. reflexivity. }
  split.
  { rewrite ground_truths_spec, recorded_baseline_snoc, Hm, Hbase. reflexivity. }
  split; [apply results_lookup; exact Hir |].
  simpl. unfold RowSpec.expected_delta.
  apply Z.eqb_neq in Hr. rewrite Hr.
  assert (Htake : take (length pre + S (length mid)) data = pre ++ b :: mid).
  { unfold data.
    replace (pre ++ b :: mid ++ r :: post) with ((pre ++ b :: mid) ++ r :: post)
      by (rewrite <- app_assoc; reflexivity).
    apply take_app_length'. rewrite length_app. simpl. lia. }
  rewrite Htake, (recorded_baseline_last pre mid b _ Hbase Hmid). reflexivity.
Qed.

End AnalyzerProperties.

Lemma zip_with_as_map {A B C : Type} (f : A -> B -> C) (l : list A) (k : list B) :
  zip_with f l k = map (fun ab => f (fst ab) (snd ab)) (zip l k).
Proof.
  revert k. induction l as [| a l IH]; intros [| b k]; simpl;
    [| | | rewrite IH]; reflexivity.
Qed.

(** C8.  [calculate_average_error] returns exactly 0.0 when one of its lists
    is empty; otherwise it returns, with no division by zero, the sum of the
    absolute differences of the paired elements divided by their number,
    which is not zero. *)
Theorem calculate_average_error_spec (ground_truths predictions : list Q) :
  ((ground_truths = [] \/ predictions = []) ->
   DCRCalculator.calculate_average_error ground_truths predictions = Ok 0) /\
  (ground_truths <> [] -> predictions <> [] ->
   let pairs := zip ground_truths predictions in
   (0 < length pairs)%nat /\
   DCRCalculator.calculate_average_error ground_truths predictions
   = Ok (py_sum (map (fun gp => Qabs (fst gp - snd gp)) pairs)
         / inject_Z (Z.of_nat (length pairs)))).
Proof.
  split.
  - intros [-> | ->]; unfold DCRCalculator.calculate_average_error; simpl;
      [reflexivity |].
    rewrite orb_true_r. reflexivity.
  - intros Hg Hp pairs.
    destruct ground_truths as [| g gs]; [congruence |].
    destruct predictions as [| p ps]; [congruence |].
    split; [simpl; lia |].
    unfold DCRCalculator.calculate_average_error, pairs.
    change (py_not (g :: gs) || py_not (p :: ps)) with false. cbv iota.
    rewrite zip_with_as_map, length_map. reflexivity.
Qed.

(** C9.  The adjusted accuracy is [raw * (1 - dcr)]: the raw accuracy at
    [dcr = 0] and zero at [dcr = 1]. *)
Theorem calculate_adjusted_accuracy_spec (raw_accuracy dcr_factor : Q) :
  DCRCalculator.calculate_adjusted_accuracy raw_accuracy dcr_factor
  = raw_accuracy * (1 - dcr_factor) /\
  DCRCalculator.calculate_adjusted_accuracy raw_accuracy 0 == raw_accuracy /\
  DCRCalculator.calculate_adjusted_accuracy raw_accuracy 1 == 0.
Proof.
  unfold DCRCalculator.calculate_adjusted_accuracy.
  repeat split; ring.
Qed.

(** ** The thresholds *)

(** C6, as amended.  The engine takes no configuration: the three thresholds
    are the constants 0.02, 0.06 and 0.001 of [calculate_dcr] and
    [_apply_rules].  They are the values of [DCR_SETTINGS], so the engine
    computes what the engine of the specification computes when it is
    constructed with [DCR_SETTINGS], for every library and all inputs. *)
Theorem thresholds_are_constants `{Skfuzzy} (s1 s2 s3 s4 : Q) :
  FuzzySystem.calculate_dcr FuzzySystem.__init__ s1 s2 s3 s4 =
  SpecEngine.calculate_dcr (SpecEngine.__init__ DCR_SETTINGS) s1 s2 s3 s4.
Proof. reflexivity. Qed.

(** C6, as stated, fails.  With the threshold 0.5 supplied, inputs of mean 0.1
    are negligible for the engine of the specification, which returns 0; the
    engine of the source has nowhere to receive the threshold, compares with
    0.02 and returns 0.2096. *)
Lemma thresholds_not_configurable :
  SpecEngine.calculate_dcr (H := reference_skfuzzy)
    (SpecEngine.__init__ alternate_settings) (1 # 10) (1 # 10) (1 # 10) (1 # 10) == 0 /\
  FuzzySystem.calculate_dcr (H := reference_skfuzzy)
    FuzzySystem.__init__ (1 # 10) (1 # 10) (1 # 10) (1 # 10) == 2096 # 10000 /\
  ~ (forall (config : Settings) (s1 s2 s3 s4 : Q),
       FuzzySystem.calculate_dcr (H := reference_skfuzzy)
         FuzzySystem.__init__ s1 s2 s3 s4 ==
       SpecEngine.calculate_dcr (H := reference_skfuzzy)
         (SpecEngine.__init__ config) s1 s2 s3 s4).
Proof.
  split; [vm_compute; reflexivity |].
  split; [vm_compute; reflexivity |].
  intros Hall.
  specialize (Hall alternate_settings (1 # 10) (1 # 10) (1 # 10) (1 # 10)).
  vm_compute in Hall. discriminate.
Qed.

(** ** Closed examples *)

Lemma process_experiment_data_records_witness :
  exists report,
    DCRCalculator.process_experiment_data (H := reference_skfuzzy)
      (H0 := stand_in_scipy) example_calculator example_rows = Ok report /\
    length (report_results report) = 5%nat.
Proof.
  destruct (process_experiment_data_records (H := reference_skfuzzy)
              (H0 := stand_in_scipy) example_calculator example_rows)
    as (report & Hrun & Hlen & _).
  exists report. split; [exact Hrun | exact Hlen].
Defined.

Lemma process_experiment_data_statistics_witness :
  (2 <= length example_rows)%nat /\
  exists report,
    DCRCalculator.process_experiment_data (H := reference_skfuzzy)
      (H0 := stand_in_scipy) example_calculator example_rows = Ok report /\
    pearsonr (map (RowSpec.row_dcr example_calculator) example_rows)
             (map row_acc example_rows)
    = Ok (correlation report, p_value report).
Proof.
  split; [simpl; lia |].
  destruct (process_experiment_data_statistics (H := reference_skfuzzy)
              (H0 := stand_in_scipy) example_calculator example_rows)
    as (report & Hrun & _ & _ & _ & Hp).
  exists report. split; [exact Hrun | apply Hp; simpl; lia].
Defined.

Lemma calculate_correlation_cases_witness :
  DCRCalculator.calculate_correlation (H0 := stand_in_scipy) [1 # 10] [70; 75]
  = Ok (0, 1) /\
  (exists r p,
     DCRCalculator.calculate_correlation (H0 := stand_in_scipy)
       [1 # 10; 3 # 10; 5 # 10] [70; 75; 85] = Ok (r, p) /\
     pearsonr [1 # 10; 3 # 10; 5 # 10] [70; 75; 85] = Ok (r, p)) /\
  DCRCalculator.calculate_correlation (H0 := stand_in_scipy)
    [1 # 10; 2 # 10; 3 # 10] [70; 75]
  = pearsonr [1 # 10; 2 # 10; 3 # 10] [70; 75].
Proof.
  split; [| split].
  - apply (proj1 (calculate_correlation_cases (H0 := stand_in_scipy)
                    [1 # 10] [70; 75])).
    simpl. lia.
  - apply (proj1 (proj2 (calculate_correlation_cases (H0 := stand_in_scipy)
                           [1 # 10; 3 # 10; 5 # 10] [70; 75; 85]))).
    + reflexivity.
    + simpl. lia.
  - apply (proj2 (proj2 (calculate_correlation_cases (H0 := stand_in_scipy)
                           [1 # 10; 2 # 10; 3 # 10] [70; 75]))).
    + simpl. lia.
    + discriminate.
Defined.

(** C7, as stated, fails.  Three DCR values and two accuracies make two
    paired samples, so the lists pass the guard; [pearsonr] receives lists of
    different lengths and raises [ValueError], as SciPy does, and
    [calculate_correlation] propagates it: no Pearson statistics are
    returned. *)
Lemma calculate_correlation_unequal_lengths :
  (2 <= length (zip [1 # 10; 2 # 10; 3 # 10] [70; 75]))%nat /\
  DCRCalculator.calculate_correlation (H0 := stand_in_scipy)
    [1 # 10; 2 # 10; 3 # 10] [70; 75] = Raise ValueError /\
  ~ (forall dcr_values accuracy_values : list Q,
       (2 <= length (zip dcr_values accuracy_values))%nat ->
       exists rp,
         DCRCalculator.calculate_correlation (H0 := stand_in_scipy)
           dcr_values accuracy_values = Ok rp).
Proof.
  split; [simpl; lia |].
  split; [reflexivity |].
  intros Hall.
  destruct (Hall [1 # 10; 2 # 10; 3 # 10] [70; 75]) as [rp Hrp];
    [simpl; lia | discriminate].
Qed.

Lemma calculate_average_error_spec_witness :
  DCRCalculator.calculate_average_error [] [1; 2] = Ok 0 /\
  DCRCalculator.calculate_average_error [80; 90] [70; 95; 1]
  = Ok (py_sum [Qabs (80 - 70); Qabs (90 - 95)] / inject_Z 2).
Proof.
  split.
  - apply (proj1 (calculate_average_error_spec [] [1; 2])). left. reflexivity.
  - apply (proj2 (calculate_average_error_spec [80; 90] [70; 95; 1]));
      discriminate.
Defined.

Lemma delta_against_latest_baseline_witness :
  exists report rec_b rec_r,
    DCRCalculator.process_experiment_data (H := reference_skfuzzy)
      (H0 := stand_in_scipy) example_calculator example_rows = Ok report /\
    report_results report !! 1%nat = Some rec_b /\
    delta rec_b = 0 /\
    report_results report !! 3%nat = Some rec_r /\
    delta rec_r =
    DCRCalculator.calculate_delta
      (RowSpec.row_adj_acc example_calculator second_M)
      (RowSpec.row_adj_acc example_calculator contaminated_M).
Proof.
  destruct (delta_against_latest_baseline (H := reference_skfuzzy)
              (H0 := stand_in_scipy) example_calculator
              [first_M] [baseline_N] [contaminated_P] second_M contaminated_M)
    as (report & rec_b & rec_r & Hrun & Hb & Hdb & _ & Hr & Hdr).
  - reflexivity.
  - reflexivity.
  - discriminate.
  - intros row Hin. apply list_elem_of_singleton in Hin. subst row. reflexivity.
  - exists report, rec_b, rec_r. repeat split; assumption.
Defined.

(** In the example the contaminated row of M is measured against the second
    baseline row of M, which differs from the first; the row of the model
    without a baseline has delta 0. *)
Example latest_baseline_not_first :
  exists report,
    DCRCalculator.process_experiment_data (H := reference_skfuzzy)
      (H0 := stand_in_scipy) example_calculator example_rows = Ok report /\
    map (fun rec => Qred (delta rec)) (report_results report)
    = [0; 0; 0; Qred (Qabs (70 * (1 - (4136 # 10000)) - 90 * (1 - (2096 # 10000)))); 0] /\
    RowSpec.first_baseline example_calculator
      (take 3 example_rows) "M" = Some (80 * (1 - 0)) /\
    ~ 80 * (1 - 0) == 90 * (1 - (2096 # 10000)).
Proof.
  eexists. split; [vm_compute; reflexivity |].
  split; [vm_compute; reflexivity |].
  split; [vm_compute; reflexivity |].
  vm_compute. discriminate.
Qed.

(** * Further properties of the code *)

(** ** Numbers, continued *)

Lemma py_sum_snoc (l : list Q) (v : Q) : py_sum (l ++ [v]) = py_sum l + v.
Proof. unfold py_sum. rewrite fold_left_app. reflexivity. Qed.

Lemma fold_left_Qplus_shift (l : list Q) (a : Q) :
  fold_left Qplus l a == a + py_sum l.
Proof.
  unfold py_sum. revert a.
  induction l as [| v l IH]; intros a; simpl; [ring |].
  rewrite (IH (a + v)), (IH (0 + v)). ring.
Qed.

Lemma py_sum_cons (v : Q) (l : list Q) : py_sum (v :: l) == v + py_sum l.
Proof.
  unfold py_sum at 1. simpl. rewrite fold_left_Qplus_shift. ring.
Qed.

(** A sum of numbers between [0] and [bound] lies between [0] and the number
    of terms times [bound]. *)
Lemma py_sum_bounds (l : list Q) (bound : Q) :
  Forall (fun v => 0 <= v <= bound) l ->
  0 <= py_sum l <= inject_Z (Z.of_nat (length l)) * bound.
Proof.
  induction 1 as [| v l [Hv0 Hvb] _ [IH0 IHb]].
  - change (py_sum []) with 0.
    change (inject_Z (Z.of_nat (length (@nil Q)))) with 0. lra.
  - rewrite py_sum_cons.
    change (length (v :: l)) with (S (length l)).
    rewrite Nat2Z.inj_succ, <- Z.add_1_r, inject_Z_plus.
    change (inject_Z 1) with 1.
    set (n := inject_Z (Z.of_nat (length l))) in *.
    split; [lra |].
    assert (Hexp : (n + 1) * bound == n * bound + bound) by ring.
    rewrite Hexp. lra.
Qed.

(** [round_half_even] is within one half of its argument. *)
Lemma round_half_even_close (q : Q) :
  - (1 # 2) <= inject_Z (round_half_even q) - q <= 1 # 2.
Proof.
  pose proof (Qfloor_spec q) as [Hlo Hhi].
  unfold round_half_even. cbv zeta.
  destruct (Qcompare (q - inject_Z (Qfloor q)) (1 # 2)) eqn:E.
  - apply Qeq_alt in E.
    destruct (Z.even _); [| rewrite inject_Z_plus; change (inject_Z 1) with 1]; lra.
  - apply Qlt_alt in E. lra.
  - apply Qgt_alt in E. rewrite inject_Z_plus. change (inject_Z 1) with 1. lra.
Qed.

(** [round_half_even] does not go below an integer its argument reaches. *)
Lemma round_half_even_lower (q : Q) (n : Z) :
  inject_Z n <= q -> (n <= round_half_even q)%Z.
Proof.
  intros Hn.
  assert (Hf : (n <= Qfloor q)%Z).
  { rewrite <- (Qfloor_Z n). apply Qfloor_resp_le. exact Hn. }
  unfold round_half_even. cbv zeta.
  destruct (Qcompare _ _); [destruct (Z.even _) | |]; lia.
Qed.

(** [round(q, n)] is within half a unit of the last decimal of [q]. *)
Lemma py_round_close (q : Q) (n : nat) :
  Qabs (py_round q n - q) <= (1 # 2) / inject_Z (10 ^ Z.of_nat n).
Proof.
  unfold py_round. cbv zeta.
  set (scale := inject_Z (10 ^ Z.of_nat n)).
  pose proof (pow10_pos n) as Hs. fold scale in Hs.
  pose proof (round_half_even_close (q * scale)) as [Hlo Hhi].
  set (k := inject_Z (round_half_even (q * scale))) in *.
  assert (Heq : k / scale - q == (k - q * scale) / scale) by (field; lra).
  rewrite Heq. apply Qabs_Qle_condition. split.
  - apply Qle_shift_div_l; [exact Hs |].
    assert (- ((1 # 2) / scale) * scale == - (1 # 2)) as -> by (field; lra).
    exact Hlo.
  - apply Qle_shift_div_r; [exact Hs |].
    assert ((1 # 2) / scale * scale == 1 # 2) as -> by (field; lra).
    exact Hhi.
Qed.

(** ** [calculate_delta], [calculate_adjusted_accuracy] *)

(** X1.  [calculate_delta] is a distance: never negative, symmetric in its two
    arguments, zero exactly on equal arguments, and it satisfies the triangle
    inequality. *)
Theorem calculate_delta_distance (a b c : Q) :
  0 <= DCRCalculator.calculate_delta a b /\
  DCRCalculator.calculate_delta a b = DCRCalculator.calculate_delta b a /\
  (DCRCalculator.calculate_delta a b == 0 <-> a == b) /\
  DCRCalculator.calculate_delta a c
  <= DCRCalculator.calculate_delta a b + DCRCalculator.calculate_delta b c.
Proof.
  unfold DCRCalculator.calculate_delta.
  split; [apply Qabs_nonneg |].
  split; [apply Qabs_Qminus |].
  split.
  - split.
    + intros Hz.
      assert (Hle : Qabs (b - a) <= 0) by (rewrite Hz; lra).
      apply Qabs_Qle_condition in Hle. lra.
    + intros Hab.
      assert (Hba : b - a == 0) by lra.
      rewrite Hba. reflexivity.
  - assert (Heq : c - a == (c - b) + (b - a)) by ring.
    rewrite Heq.
    pose proof (Qabs_triangle (c - b) (b - a)). lra.
Qed.

(** X2.  For a DCR factor of the unit interval and a raw accuracy that is not
    negative, the adjusted accuracy lies between 0 and the raw accuracy, and
    a larger factor gives a smaller adjusted accuracy. *)
Theorem calculate_adjusted_accuracy_bounds (raw_accuracy d1 d2 : Q) :
  0 <= raw_accuracy -> 0 <= d1 -> d1 <= d2 -> d2 <= 1 ->
  0 <= DCRCalculator.calculate_adjusted_accuracy raw_accuracy d2 /\
  DCRCalculator.calculate_adjusted_accuracy raw_accuracy d2
  <= DCRCalculator.calculate_adjusted_accuracy raw_accuracy d1 /\
  DCRCalculator.calculate_adjusted_accuracy raw_accuracy d1 <= raw_accuracy.
Proof.
  intros Hraw H1 H12 H2. unfold DCRCalculator.calculate_adjusted_accuracy.
  repeat split; nra.
Qed.

Lemma calculate_adjusted_accuracy_bounds_witness :
  0 <= DCRCalculator.calculate_adjusted_accuracy 85 (1 # 2) /\
  DCRCalculator.calculate_adjusted_accuracy 85 (1 # 2)
  <= DCRCalculator.calculate_adjusted_accuracy 85 (1 # 4) /\
  DCRCalculator.calculate_adjusted_accuracy 85 (1 # 4) <= 85.
Proof.
  apply (calculate_adjusted_accuracy_bounds 85 (1 # 4) (1 # 2));
    vm_compute; discriminate.
Defined.

(** ** [calculate_average_error] *)

Lemma zip_with_swap {A B C : Type} (f : A -> B -> C) (g : B -> A -> C)
    (l : list A) (k : list B) :
  (forall a b, f a b = g b a) -> zip_with f l k = zip_with g k l.
Proof.
  intros Hfg. revert k.
  induction l as [| a l IH]; intros [| b k]; simpl;
    [| | | rewrite Hfg, IH]; reflexivity.
Qed.

Lemma zip_with_longer_r {A B C : Type} (f : A -> B -> C)
    (l : list A) (k extra : list B) :
  length l = length k -> zip_with f l (k ++ extra) = zip_with f l k.
Proof.
  revert k. induction l as [| a l IH]; intros [| b k] Hlen; simpl in *;
    try discriminate; [reflexivity |].
  rewrite IH by lia. reflexivity.
Qed.

Lemma zip_with_longer_l {A B C : Type} (f : A -> B -> C)
    (l extra : list A) (k : list B) :
  length l = length k -> zip_with f (l ++ extra) k = zip_with f l k.
Proof.
  revert k. induction l as [| a l IH]; intros [| b k] Hlen; simpl in *;
    try discriminate.
  - destruct extra; reflexivity.
  - rewrite IH by lia. reflexivity.
Qed.

(** X3.  When the absolute difference of every compared pair is at most
    [bound], the average error is returned and lies between 0 and [bound]. *)
Theorem calculate_average_error_bounds (ground_truths predictions : list Q)
    (bound : Q) :
  0 <= bound ->
  (forall gp, gp ∈ zip ground_truths predictions ->
     Qabs (fst gp - snd gp) <= bound) ->
  exists v,
    DCRCalculator.calculate_average_error ground_truths predictions = Ok v /\
    0 <= v <= bound.
Proof.
  intros Hb Hall.
  destruct ground_truths as [| g gs].
  { exists 0. split; [reflexivity | lra]. }
  destruct predictions as [| p ps].
  { exists 0. split; [reflexivity | lra]. }
  unfold DCRCalculator.calculate_average_error.
  change (py_not (g :: gs) || py_not (p :: ps)) with false. cbv iota.
  rewrite zip_with_as_map, length_map.
  set (pairs := zip (g :: gs) (p :: ps)) in *.
  assert (Hn : (0 < length pairs)%nat) by (simpl; lia).
  destruct (length pairs) as [| n] eqn:En; [lia |].
  eexists. split; [reflexivity |].
  assert (Hsum := py_sum_bounds
            (map (fun ab => Qabs (fst ab - snd ab)) pairs) bound).
  rewrite length_map, En in Hsum.
  assert (Hpos : 0 < inject_Z (Z.of_nat (S n))).
  { change 0 with (inject_Z 0). rewrite <- Zlt_Qlt. lia. }
  destruct Hsum as [Hs0 Hsb].
  { apply Forall_forall. intros v Hv.
    apply list_elem_of_In, in_map_iff in Hv as (gp & <- & Hin).
    split; [apply Qabs_nonneg |]. apply Hall, list_elem_of_In, Hin. }
  split.
  - apply Qle_shift_div_l; lra.
  - apply Qle_shift_div_r; lra.
Qed.

Lemma calculate_average_error_bounds_witness :
  exists v,
    DCRCalculator.calculate_average_error [80; 90] [70; 95] = Ok v /\
    0 <= v <= 10.
Proof.
  apply (calculate_average_error_bounds [80; 90] [70; 95] 10).
  - vm_compute. discriminate.
  - intros gp Hin.
    apply elem_of_cons in Hin as [-> | Hin]; [vm_compute; discriminate |].
    apply list_elem_of_singleton in Hin as ->. vm_compute. discriminate.
Defined.

(** X4.  The average error does not depend on which of the two lists is
    called the ground truth. *)
Theorem calculate_average_error_sym (ground_truths predictions : list Q) :
  DCRCalculator.calculate_average_error ground_truths predictions =
  DCRCalculator.calculate_average_error predictions ground_truths.
Proof.
  unfold DCRCalculator.calculate_average_error.
  rewrite (orb_comm (py_not ground_truths)).
  rewrite (zip_with_swap (fun gt pred => Qabs (gt - pred))
             (fun gt pred => Qabs (gt - pred)) ground_truths predictions)
    by (intros a b; apply Qabs_Qminus).
  reflexivity.
Qed.

(** X5.  The lists are compared pairwise up to the shorter one: elements of
    either list beyond the length of the other are ignored, without an
    error. *)
Theorem calculate_average_error_truncates
    (ground_truths predictions extra : list Q) :
  length ground_truths = length predictions ->
  ground_truths <> [] ->
  DCRCalculator.calculate_average_error ground_truths (predictions ++ extra)
  = DCRCalculator.calculate_average_error ground_truths predictions /\
  DCRCalculator.calculate_average_error (ground_truths ++ extra) predictions
  = DCRCalculator.calculate_average_error ground_truths predictions.
Proof.
  intros Hlen Hne.
  destruct ground_truths as [| g gs]; [congruence |].
  destruct predictions as [| p ps]; [discriminate |].
  unfold DCRCalculator.calculate_average_error. split.
  - rewrite zip_with_longer_r by exact Hlen. reflexivity.
  - rewrite zip_with_longer_l by exact Hlen. reflexivity.
Qed.

Lemma calculate_average_error_truncates_witness :
  DCRCalculator.calculate_average_error [80; 90] ([70; 95] ++ [1; 2; 3])
  = DCRCalculator.calculate_average_error [80; 90] [70; 95] /\
  DCRCalculator.calculate_average_error ([80; 90] ++ [1; 2; 3]) [70; 95]
  = DCRCalculator.calculate_average_error [80; 90] [70; 95].
Proof.
  apply (calculate_average_error_truncates [80; 90] [70; 95] [1; 2; 3]).
  - reflexivity.
  - discriminate.
Defined.

(** ** The input sanitization *)

(** Case analysis on the comparisons of the goal, innermost first. *)
Ltac case_Qltb_inner :=
  repeat match goal with
  | |- context [Qltb ?a ?b] =>
      lazymatch a with
      | context [Qltb _ _] => fail
      | _ =>
          lazymatch b with
          | context [Qltb _ _] => fail
          | _ =>
              let E := fresh "E" in
              destruct (Qltb a b) eqn:E;
              [apply Qltb_lt in E | apply Qltb_ge in E]
          end
      end
  end.

(** X6.  The sanitization of [calculate_dcr] is the clamp to the unit
    interval: 0 below 0, 1 above 1, the value itself in between, and it keeps
    the order of its arguments. *)
Theorem sanitize_clamp (v w : Q) :
  (v <= 0 -> FuzzySystem.sanitize v = 0) /\
  (1 < v -> FuzzySystem.sanitize v = 1) /\
  (0 < v -> v <= 1 -> FuzzySystem.sanitize v = v) /\
  (v <= w -> FuzzySystem.sanitize v <= FuzzySystem.sanitize w).
Proof.
  unfold FuzzySystem.sanitize, py_max, py_min.
  repeat split.
  - intros Hv. case_Qltb_inner; try reflexivity; exfalso; lra.
  - intros Hv. case_Qltb_inner; try reflexivity; exfalso; lra.
  - intros H0 H1. case_Qltb_inner; try reflexivity; exfalso; lra.
  - intros Hvw. case_Qltb_inner; lra.
Qed.

Lemma sanitize_clamp_witness :
  FuzzySystem.sanitize (-3 # 1) = 0 /\
  FuzzySystem.sanitize (7 # 2) = 1 /\
  FuzzySystem.sanitize (3 # 10) = 3 # 10 /\
  FuzzySystem.sanitize (-3 # 1) <= FuzzySystem.sanitize (7 # 2).
Proof.
  split; [apply (proj1 (sanitize_clamp (-3 # 1) 0)); vm_compute; discriminate |].
  split; [apply (proj1 (proj2 (sanitize_clamp (7 # 2) 0))); reflexivity |].
  split.
  - apply (proj1 (proj2 (proj2 (sanitize_clamp (3 # 10) 0))));
      [reflexivity | vm_compute; discriminate].
  - apply (proj2 (proj2 (proj2 (sanitize_clamp (-3 # 1) (7 # 2))))).
    vm_compute. discriminate.
Defined.

(** ** The fuzzy engine, continued *)

Section EngineExtras.
Context `{Skfuzzy}.

Lemma try_block_form (self : FuzzySystem.t) (fuzzified : Fuzzified) (min_memb r : Q) :
  FuzzySystem.try_block self fuzzified min_memb = Ok r ->
  exists d, r = py_round (py_max (py_min d 1) 0) 4.
Proof.
  unfold FuzzySystem.try_block, mbind, result_bind, mret, result_ret.
  destruct (FuzzySystem._apply_rules self fuzzified min_memb) as [agg | e];
    [| discriminate].
  destruct (defuzz (FuzzySystem.x self) agg "centroid") as [d | e];
    [| discriminate].
  intros [= <-]. exists d. reflexivity.
Qed.

(** Rounding a number of the unit interval gives a fraction of the scale. *)
Lemma py_round_grid (q : Q) (n : nat) :
  0 <= q <= 1 ->
  exists k : Z,
    (0 <= k <= 10 ^ Z.of_nat n)%Z /\
    py_round q n = inject_Z k / inject_Z (10 ^ Z.of_nat n).
Proof.
  intros [H0 H1].
  exists (round_half_even (q * inject_Z (10 ^ Z.of_nat n))).
  split; [| reflexivity].
  pose proof (pow10_pos n) as Hs.
  apply round_half_even_bounds; nra.
Qed.

(** X7.  Every value [calculate_dcr] returns is a multiple of 0.0001 between
    0 and 1: the result has at most four decimals on every path. *)
Theorem calculate_dcr_four_decimals (self : FuzzySystem.t) (s1 s2 s3 s4 : Q) :
  exists k : Z,
    (0 <= k <= 10000)%Z /\
    FuzzySystem.calculate_dcr self s1 s2 s3 s4 == inject_Z k / inject_Z 10000.
Proof.
  unfold FuzzySystem.calculate_dcr. cbv zeta.
  destruct (Qltb _ (2 # 100)).
  { exists 0%Z. split; [lia | reflexivity]. }
  destruct (FuzzySystem.try_block _ _ _) as [r | e] eqn:Et.
  - apply try_block_form in Et as [d ->].
    destruct (py_round_grid (py_max (py_min d 1) 0) 4 (clamp_range d))
      as (k & Hk & ->).
    exists k. split; [exact Hk | reflexivity].
  - set (mean := np_mean _).
    assert (Hmm : 0 <= py_max (1 # 1000) mean <= 1).
    { pose proof (mean_inputs_range s1 s2 s3 s4) as [Hlo Hhi]. fold mean in Hlo, Hhi.
      unfold py_max. case_Qltb; lra. }
    destruct (py_round_grid _ 3 Hmm) as (k & Hk & ->).
    exists (10 * k)%Z. split; [change (10 ^ Z.of_nat 3)%Z with 1000%Z in Hk; lia |].
    change (10 ^ Z.of_nat 3)%Z with 1000%Z.
    rewrite inject_Z_mult. field.
Qed.

(** X8.  Past the short circuit the floor 0.001 is never the larger number:
    [min_memb] is the mean of the clamped inputs.  When the fallback is taken
    the result is that mean rounded to three decimals; it is at least 0.02 and
    within 0.0005 of the mean. *)
Theorem calculate_dcr_fallback_value (self : FuzzySystem.t) (s1 s2 s3 s4 : Q)
    (e : exception) :
  let v1 := FuzzySystem.sanitize s1 in
  let v2 := FuzzySystem.sanitize s2 in
  let v3 := FuzzySystem.sanitize s3 in
  let v4 := FuzzySystem.sanitize s4 in
  let mean := np_mean [v1; v2; v3; v4] in
  let fuzzified :=
    {| L1 := FuzzySystem.fuzzify self mean v1;
       L2 := FuzzySystem.fuzzify self mean v2;
       L3 := FuzzySystem.fuzzify self mean v3;
       L4 := FuzzySystem.fuzzify self mean v4 |} in
  2 # 100 <= mean ->
  FuzzySystem.try_block self fuzzified mean = Raise e ->
  FuzzySystem.calculate_dcr self s1 s2 s3 s4 = py_round mean 3 /\
  2 # 100 <= FuzzySystem.calculate_dcr self s1 s2 s3 s4 /\
  Qabs (FuzzySystem.calculate_dcr self s1 s2 s3 s4 - mean) <= 1 # 2000.
Proof.
  intros v1 v2 v3 v4 mean fuzzified Hmean Hfail.
  assert (Hfloor : py_max (1 # 1000) mean = mean).
  { unfold py_max.
    assert (Hlt : Qltb (1 # 1000) mean = true) by (apply Qltb_lt; lra).
    rewrite Hlt. reflexivity. }
  assert (Hval : FuzzySystem.calculate_dcr self s1 s2 s3 s4 = py_round mean 3).
  { unfold FuzzySystem.calculate_dcr. cbv zeta. fold v1 v2 v3 v4. fold mean.
    apply Qltb_ge in Hmean. rewrite Hmean, Hfloor.
    fold fuzzified. rewrite Hfail. reflexivity. }
  rewrite Hval. split; [reflexivity |]. split.
  - unfold py_round. cbv zeta.
    change (inject_Z (10 ^ Z.of_nat 3)) with (inject_Z 1000).
    assert (Hk : (20 <= round_half_even (mean * inject_Z 1000))%Z).
    { apply round_half_even_lower.
      change (inject_Z 20) with 20. change (inject_Z 1000) with 1000. lra. }
    rewrite Zle_Qle in Hk. change (inject_Z 20) with 20 in Hk.
    set (k := inject_Z (round_half_even (mean * inject_Z 1000))) in *.
    apply Qle_shift_div_l; [reflexivity |].
    change (inject_Z 1000) with 1000. lra.
  - pose proof (py_round_close mean 3) as Hc.
    change ((1 # 2) / inject_Z (10 ^ Z.of_nat 3)) with ((1 # 2) / 1000) in Hc.
    assert (Heq : (1 # 2) / 1000 == 1 # 2000) by reflexivity.
    rewrite Heq in Hc. exact Hc.
Qed.

Lemma np_zip_shape (f : Q -> Q -> Q) (a b : list Q) :
  (length a = length b ->
   np_zip f a b = Ok (zip_with f a b) /\ length (zip_with f a b) = length a) /\
  (length a <> length b -> np_zip f a b = Raise ValueError).
Proof.
  unfold np_zip. split; intros Hlen.
  - rewrite decide_True by exact Hlen. split; [reflexivity |].
    rewrite length_zip_with, <- Hlen. apply Nat.min_id.
  - rewrite decide_False by exact Hlen. reflexivity.
Qed.

Lemma np_fmax_fold_raise (rest : list (list Q)) (e : exception) :
  foldl (fun acc b => acc ← acc; np_zip np_fmax acc b) (Raise e) rest = Raise e.
Proof. induction rest as [| b rest IH]; simpl; [reflexivity | exact IH]. Qed.

(** [np.fmax.reduce] returns exactly on arrays of one common length. *)
Lemma np_fmax_reduce_shape (a : list Q) (rest : list (list Q)) :
  (Forall (fun b => length b = length a) rest ->
   exists aggregated,
     np_fmax_reduce (a :: rest) = Ok aggregated /\
     length aggregated = length a) /\
  (~ Forall (fun b => length b = length a) rest ->
   np_fmax_reduce (a :: rest) = Raise ValueError).
Proof.
  unfold np_fmax_reduce. revert a.
  induction rest as [| b rest IH]; intros a.
  - split; [intros _; exists a; split; reflexivity |].
    intros Hnot. exfalso. apply Hnot. constructor.
  - simpl.
    change (Ok a ≫= (fun acc => np_zip np_fmax acc b))
      with (np_zip np_fmax a b).
    destruct (np_zip_shape np_fmax a b) as [Hok Hraise].
    destruct (decide (length a = length b)) as [Hlen | Hlen].
    + destruct (Hok Hlen) as [-> Hzl].
      destruct (IH (zip_with np_fmax a b)) as [IHok IHraise].
      rewrite Hzl in IHok, IHraise.
      split.
      * intros Hall. apply IHok. inversion Hall; assumption.
      * intros Hnot. apply IHraise. intros Hall. apply Hnot.
        constructor; [symmetry; exact Hlen | exact Hall].
    + rewrite (Hraise Hlen). rewrite np_fmax_fold_raise.
      split; [| reflexivity].
      intros Hall. inversion Hall; subst. congruence.
Qed.

(** X9.  [_apply_rules] returns an aggregate exactly when the five output
    membership arrays have one common length that is not zero, and the
    aggregate then has that length; otherwise it raises [ValueError]. *)
Theorem apply_rules_shape (self : FuzzySystem.t) (fuzzified : Fuzzified)
    (min_memb : Q) :
  let terms := FuzzySystem.output_terms self in
  let n := length (Negligible terms) in
  (n <> 0%nat /\ length (Severe terms) = n /\ length (Significant terms) = n /\
   length (Moderate terms) = n /\ length (Minor terms) = n ->
   exists aggregated,
     FuzzySystem._apply_rules self fuzzified min_memb = Ok aggregated /\
     length aggregated = n) /\
  (~ (n <> 0%nat /\ length (Severe terms) = n /\ length (Significant terms) = n /\
      length (Moderate terms) = n /\ length (Minor terms) = n) ->
   FuzzySystem._apply_rules self fuzzified min_memb = Raise ValueError).
Proof.
  intros terms n.
  unfold FuzzySystem._apply_rules. cbv zeta. fold terms.
  match goal with
  | |- context [np_fmax_reduce (?a :: ?rest)] =>
      destruct (np_fmax_reduce_shape a rest) as [Hok Hraise];
      assert (Hshape : Forall (fun b => length b = length a) rest <->
                length (Severe terms) = n /\ length (Significant terms) = n /\
                length (Moderate terms) = n /\ length (Minor terms) = n);
      [| destruct (np_fmax_reduce (a :: rest)) as [agg | e] eqn:Er]
  end.
  { rewrite !Forall_cons, Forall_nil, !length_map. fold n. tauto. }
  - assert (Hall : length (Severe terms) = n /\ length (Significant terms) = n /\
                   length (Moderate terms) = n /\ length (Minor terms) = n).
    { apply Hshape. apply dec_stable. intros Hnot.
      specialize (Hraise Hnot). discriminate. }
    destruct (Hok (proj2 Hshape Hall)) as (agg' & Heq & Hlen).
    injection Heq as <-.
    rewrite length_map in Hlen. fold n in Hlen.
    unfold mbind, result_bind, mret, result_ret.
    destruct agg as [| a0 agg0] eqn:Ea.
    + simpl. split; [| reflexivity].
      intros [Hn _]. simpl in Hlen. congruence.
    + set (full := a0 :: agg0) in *. simpl np_max. cbv iota.
      split; [| intros Hnot; exfalso; apply Hnot; split;
                [rewrite <- Hlen; discriminate | exact Hall]].
      intros _.
      destruct (Qltb _ (6 # 100)); [| exists full; split; [reflexivity | exact Hlen]].
      destruct (np_zip_shape Qplus full
                  (map (fun v => v * min_memb) (Negligible terms))) as [Hz _].
      destruct Hz as [-> Hzl]; [rewrite length_map; exact Hlen |].
      eexists. split; [reflexivity |]. rewrite Hzl. exact Hlen.
  - assert (He : e = ValueError).
    { destruct (decide (length (Severe terms) = n /\ length (Significant terms) = n /\
                   length (Moderate terms) = n /\ length (Minor terms) = n))
        as [Hall | Hnall].
      - destruct (Hok (proj2 Hshape Hall)) as (agg' & Heq & _). congruence.
      - assert (Hr : Raise e = Raise ValueError :> result (list Q))
          by (apply Hraise; rewrite Hshape; exact Hnall).
        congruence. }
    subst e. simpl. split; [| reflexivity].
    intros (_ & Hall). destruct (Hok (proj2 Hshape Hall)) as (agg' & Heq & _).
    congruence.
Qed.

End EngineExtras.

Lemma calculate_dcr_fallback_value_witness :
  FuzzySystem.calculate_dcr (H := failing_skfuzzy) FuzzySystem.__init__
    (1 # 10) (1 # 10) (1 # 10) (1 # 10) == 1 # 10 /\
  2 # 100 <= FuzzySystem.calculate_dcr (H := failing_skfuzzy) FuzzySystem.__init__
    (1 # 10) (1 # 10) (1 # 10) (1 # 10).
Proof.
  destruct (calculate_dcr_fallback_value (H := failing_skfuzzy)
              FuzzySystem.__init__ (1 # 10) (1 # 10) (1 # 10) (1 # 10)
              AssertionError) as (Hval & Hlow & _).
  - vm_compute. discriminate.
  - vm_compute. reflexivity.
  - split; [rewrite Hval; vm_compute; reflexivity | exact Hlow].
Defined.

Lemma apply_rules_shape_witness :
  (exists aggregated,
     FuzzySystem._apply_rules (FuzzySystem.__init__ (H := reference_skfuzzy))
       {| L1 := {| Low := 1; Medium := 0; High := 0 |};
          L2 := {| Low := 1; Medium := 0; High := 0 |};
          L3 := {| Low := 0; Medium := 1; High := 0 |};
          L4 := {| Low := 0; Medium := 0; High := 1 |} |} (1 # 2)
     = Ok aggregated /\ length aggregated = 101%nat) /\
  FuzzySystem._apply_rules ragged_engine
    {| L1 := {| Low := 1; Medium := 0; High := 0 |};
       L2 := {| Low := 1; Medium := 0; High := 0 |};
       L3 := {| Low := 0; Medium := 1; High := 0 |};
       L4 := {| Low := 0; Medium := 0; High := 1 |} |} (1 # 2)
  = Raise ValueError.
Proof.
  split.
  - apply (proj1 (apply_rules_shape
                    (FuzzySystem.__init__ (H := reference_skfuzzy)) _ (1 # 2))).
    repeat split; try reflexivity. discriminate.
  - apply (proj2 (apply_rules_shape ragged_engine _ (1 # 2))).
    intros (_ & _ & _ & Hmod & _). discriminate.
Defined.

(** ** The contamination analyzer, continued *)

Section AnalyzerExtras.
Context `{Skfuzzy} `{ScipyStats}.
Variable self : DCRCalculator.t.

Local Abbreviation process_rows := (DCRCalculator.process_rows self).
Local Abbreviation recorded_baseline := (RowSpec.recorded_baseline self).
Local Abbreviation row_adj_acc := (RowSpec.row_adj_acc self).
Local Abbreviation row_dcr := (RowSpec.row_dcr self).

(** Every record of the loop is the expected record of a row. *)
Lemma results_elem (data : list Row) (rec : ResultRecord) :
  rec ∈ results (process_rows data) ->
  exists i row,
    data !! i = Some row /\
    rec = RowSpec.expected_record self (take i data) row.
Proof.
  intros Hin. apply list_elem_of_lookup in Hin as [i Hi].
  assert (Hlt : (i < length data)%nat).
  { rewrite <- (results_length self data). eapply lookup_lt_Some. exact Hi. }
  destruct (lookup_lt_is_Some_2 data i Hlt) as [row Hrow].
  exists i, row. split; [exact Hrow |].
  rewrite (results_lookup self data i row Hrow) in Hi. congruence.
Qed.

Lemma expected_delta_nonneg (seen : list Row) (row : Row) :
  0 <= RowSpec.expected_delta self seen row.
Proof.
  unfold RowSpec.expected_delta.
  destruct (row_bdc_level row =? 0)%Z; [lra |].
  destruct (recorded_baseline seen (row_model row)); [apply Qabs_nonneg | lra].
Qed.

(** X10.  Every record of the report is consistent: its DCR lies in [[0, 1]],
    its adjusted accuracy is its raw accuracy times [1 - dcr], which lies
    between 0 and the raw accuracy when the raw accuracy is not negative, and
    its delta is not negative. *)
Theorem report_records_consistent (data : list Row) :
  exists report,
    DCRCalculator.process_experiment_data self data = Ok report /\
    forall rec, rec ∈ report_results report ->
      0 <= dcr rec <= 1 /\
      adj_acc rec = raw_acc rec * (1 - dcr rec) /\
      (0 <= raw_acc rec -> 0 <= adj_acc rec <= raw_acc rec) /\
      0 <= delta rec.
Proof.
  destruct (process_experiment_data_returns self data) as (report & Hrun & Hres & _).
  exists report. split; [exact Hrun |]. rewrite Hres.
  intros rec Hin. apply results_elem in Hin as (i & row & _ & ->). simpl.
  assert (Hd : 0 <= row_dcr row <= 1).
  { unfold RowSpec.row_dcr, DCRCalculator.calculate_dcr.
    unfold FuzzySystem.calculate_dcr. cbv zeta.
    destruct (Qltb _ (2 # 100)); [lra |].
    destruct (FuzzySystem.try_block _ _ _) as [r | e] eqn:Et.
    - exact (try_block_unit _ _ _ _ Et).
    - apply fallback_unit. }
  split; [exact Hd |].
  split; [reflexivity |].
  split; [| apply expected_delta_nonneg].
  intros Hraw. unfold RowSpec.row_adj_acc, DCRCalculator.calculate_adjusted_accuracy.
  fold (row_dcr row). split; nra.
Qed.

(** The deltas of the records add up to the absolute errors of the pairs. *)
Lemma deltas_sum (data : list Row) :
  py_sum (map delta (results (process_rows data))) ==
  py_sum (map (fun bc => Qabs (fst bc - snd bc)) (RowSpec.error_pairs self data)).
Proof.
  induction data as [| row data IH] using rev_ind; [reflexivity |].
  rewrite results_snoc, error_pairs_snoc, !map_app.
  cbn [map delta RowSpec.expected_record].
  rewrite py_sum_snoc, IH.
  unfold RowSpec.expected_delta, RowSpec.error_pair.
  destruct (row_bdc_level row =? 0)%Z.
  - change (option_list (@None (Q * Q))) with (@nil (Q * Q)).
    cbn [map]. rewrite app_nil_r. ring.
  - destruct (recorded_baseline data (row_model row)) as [b |].
    + change (option_list (Some (b, row_adj_acc row)))
        with [(b, row_adj_acc row)].
      cbn [map fst snd].
      rewrite py_sum_snoc, (Qabs_Qminus b). reflexivity.
    + change (option_list (@None (Q * Q))) with (@nil (Q * Q)).
      cbn [map]. rewrite app_nil_r. ring.
Qed.

(** X11.  The average error of the report times the number of compared rows
    is the sum of the deltas of all records: the records that are not
    compared to a baseline contribute a delta of 0. *)
Theorem average_error_is_mean_delta (data : list Row) :
  exists report,
    DCRCalculator.process_experiment_data self data = Ok report /\
    average_error report
    * inject_Z (Z.of_nat (length (RowSpec.error_pairs self data)))
    == py_sum (map delta (report_results report)).
Proof.
  destruct (process_experiment_data_returns self data)
    as (report & Hrun & Hres & Havg & _).
  exists report. split; [exact Hrun |].
  destruct (error_lists_spec self data) as [Hg Hp].
  rewrite Hg, Hp, average_error_of_pairs in Havg. injection Havg as Havg.
  rewrite Hres, deltas_sum, <- Havg.
  destruct (RowSpec.error_pairs self data) as [| bc pairs] eqn:Ep.
  - reflexivity.
  - unfold RowSpec.mean_abs_error.
    set (n := inject_Z (Z.of_nat (length (bc :: pairs)))).
    assert (Hn : 0 < n).
    { unfold n. change 0 with (inject_Z 0). rewrite <- Zlt_Qlt. simpl. lia. }
    field. lra.
Qed.

Lemma results_app (d1 d2 : list Row) :
  exists later,
    results (process_rows (d1 ++ d2)) = results (process_rows d1) ++ later /\
    length later = length d2.
Proof.
  induction d2 as [| row d2 (later & IH & Hlen)] using rev_ind.
  - exists []. rewrite !app_nil_r. split; reflexivity.
  - exists (later ++ [RowSpec.expected_record self (d1 ++ d2) row]).
    rewrite app_assoc, results_snoc, IH, <- app_assoc.
    split; [reflexivity |]. rewrite !length_app, Hlen. reflexivity.
Qed.

(** X12.  Rows appended to the data leave the records of the earlier rows
    unchanged: the records of a prefix of the data are the first records of
    the whole data. *)
Theorem earlier_records_stable (d1 d2 : list Row) :
  exists r1 r2 later,
    DCRCalculator.process_experiment_data self d1 = Ok r1 /\
    DCRCalculator.process_experiment_data self (d1 ++ d2) = Ok r2 /\
    report_results r2 = report_results r1 ++ later /\
    length later = length d2.
Proof.
  destruct (process_experiment_data_returns self d1) as (r1 & Hrun1 & Hres1 & _).
  destruct (process_experiment_data_returns self (d1 ++ d2))
    as (r2 & Hrun2 & Hres2 & _).
  destruct (results_app d1 d2) as (later & Happ & Hlen).
  exists r1, r2, later. rewrite Hres1, Hres2. auto.
Qed.

Lemma recorded_baseline_filter (seen : list Row) (m : string) :
  recorded_baseline (filter (fun row => row_model row = m) seen) m =
  recorded_baseline seen m.
Proof.
  induction seen as [| row seen IH]; [reflexivity |].
  rewrite filter_cons. case_decide as Hm; simpl.
  - rewrite IH. reflexivity.
  - rewrite IH. unfold RowSpec.is_baseline_of.
    rewrite bool_decide_eq_false_2 by exact Hm. rewrite andb_false_r.
    destruct (recorded_baseline seen m); reflexivity.
Qed.

Lemma results_filter (data : list Row) (m : string) :
  results (process_rows (filter (fun row => row_model row = m) data)) =
  filter (fun rec => model rec = m) (results (process_rows data)).
Proof.
  induction data as [| row data IH] using rev_ind; [reflexivity |].
  rewrite filter_app, results_snoc, filter_app.
  rewrite !filter_cons, !filter_nil. simpl model.
  case_decide as Hm.
  - rewrite results_snoc, IH. f_equal. f_equal.
    unfold RowSpec.expected_record, RowSpec.expected_delta.
    rewrite <- Hm, recorded_baseline_filter. reflexivity.
  - rewrite !app_nil_r. exact IH.
Qed.

(** X13.  The records of a model do not depend on the rows of the other
    models: processing only the rows of model [m] gives the records that the
    whole data gives for [m], in the same order. *)
Theorem records_per_model (data : list Row) (m : string) :
  exists r_all r_m,
    DCRCalculator.process_experiment_data self data = Ok r_all /\
    DCRCalculator.process_experiment_data self
      (filter (fun row => row_model row = m) data) = Ok r_m /\
    report_results r_m = filter (fun rec => model rec = m) (report_results r_all).
Proof.
  destruct (process_experiment_data_returns self data) as (r1 & Hrun1 & Hres1 & _).
  destruct (process_experiment_data_returns self
              (filter (fun row => row_model row = m) data))
    as (r2 & Hrun2 & Hres2 & _).
  exists r1, r2. rewrite Hres1, Hres2. split; [exact Hrun1 |].
  split; [exact Hrun2 | apply results_filter].
Qed.

(** X14.  With fewer than two rows nothing is compared: the report has the
    correlation 0 and the p-value 1 without a call of SciPy, the average
    error 0, and every delta 0. *)
Theorem report_of_short_data (data : list Row) :
  (length data < 2)%nat ->
  exists report,
    DCRCalculator.process_experiment_data self data = Ok report /\
    correlation report = 0 /\ p_value report = 1 /\
    average_error report = 0 /\
    forall rec, rec ∈ report_results report -> delta rec = 0.
Proof.
  intros Hshort.
  destruct data as [| row [| row' data]]; [| | simpl in Hshort; lia].
  - eexists. split; [reflexivity |]. repeat split.
    intros rec Hin. inversion Hin.
  - unfold DCRCalculator.process_experiment_data, DCRCalculator.process_rows.
    simpl foldl. unfold DCRCalculator.process_row. simpl ground_truths.
    rewrite lookup_empty.
    destruct (row_bdc_level row =? 0)%Z; simpl;
      (eexists; split; [reflexivity |]; repeat split;
       intros rec Hin; apply list_elem_of_singleton in Hin as ->; reflexivity).
Qed.

End AnalyzerExtras.

Lemma report_of_short_data_witness :
  exists report,
    DCRCalculator.process_experiment_data (H := reference_skfuzzy)
      (H0 := stand_in_scipy) example_calculator [contaminated_M] = Ok report /\
    correlation report = 0 /\ p_value report = 1 /\ average_error report = 0.
Proof.
  destruct (report_of_short_data (H := reference_skfuzzy) (H0 := stand_in_scipy)
              example_calculator [contaminated_M])
    as (report & Hrun & Hc & Hp & Ha & _).
  - simpl. lia.
  - exists report. auto.
Defined.
